(** * A shallow embedding of the planning agent

    The development follows the Python sources: [state.py] (the [State]
    dataclass), [tool.py] (the [Tool] dataclass and its [__call__]),
    [tool_list.py] (the [TOOLS] registry), and the two planners
    [planner_viz.py] (class [Planner]) and [planner.py] (class [planner]).

    Python floats are IEEE-754 binary64 numbers and are modelled by Rocq's
    primitive floats, so every arithmetic step of the planners can be
    evaluated.  The language model behind [call_gpt] and Python's global
    random generator are external: they appear as an [Oracle] record and a
    stream of draws, and the planners thread a counter of the calls and of
    the draws made so far.

    [propose_args] hands the model's reply to [eval].  The replies are
    therefore described twice: parsed ([ArgsReply], all there is to a reply
    whose evaluation has no effect), with the searches [Planner] and
    [planner] on parsed replies; and run ([Evaluation], a reply whose
    evaluation may change the state in scope, leave by an exception or not
    come back), with the searches of [Eval]. *)

From Stdlib Require Import Floats ZArith List String Ascii Bool Lia Sorted.
Import ListNotations.

Set Warnings "-inexact-float,-register-all".

Open Scope string_scope.
Open Scope list_scope.

(** ** Python values, exceptions and results *)

(** The values that can reach a field of a [State].  Argument tuples come
    from the oracle's reply through [eval], so they are not only strings:
    the model covers [None], booleans, integers, strings and lists (the
    unhashable case); floats, tuples and dictionaries as field values are
    left out. *)
Inductive PyVal : Type :=
| PyNone
| PyBool (b : bool)
| PyInt (n : Z)
| PyStr (s : string)
| PyList (l : list PyVal).

(** [v is None] *)
Definition is_none (v : PyVal) : bool :=
  match v with PyNone => true | _ => false end.

(** Truth value of [v], as [and], [not] and [if] test it. *)
Definition truthy (v : PyVal) : bool :=
  match v with
  | PyNone => false
  | PyBool b => b
  | PyInt n => negb (n =? 0)%Z
  | PyStr s => negb (s =? "")%string
  | PyList l => match l with [] => false | _ :: _ => true end
  end.

(** [hash(v)] succeeds; a list is unhashable. *)
Definition hashable (v : PyVal) : bool :=
  match v with PyList _ => false | _ => true end.

(** [a == b]; [True == 1] and [False == 0] hold in Python. *)
Fixpoint py_eq (a b : PyVal) : bool :=
  match a, b with
  | PyNone, PyNone => true
  | PyBool x, PyBool y => Bool.eqb x y
  | PyBool x, PyInt n => (n =? Z.b2z x)%Z
  | PyInt n, PyBool x => (n =? Z.b2z x)%Z
  | PyInt n, PyInt m => (n =? m)%Z
  | PyStr s, PyStr t => (s =? t)%string
  | PyList l, PyList m =>
      (fix go (l m : list PyVal) : bool :=
         match l, m with
         | [], [] => true
         | x :: l', y :: m' => py_eq x y && go l' m'
         | _, _ => false
         end) l m
  | _, _ => false
  end.

Inductive PyExn : Type :=
| ValueError (msg : string)
| IndexError
| TypeError
| ZeroDivisionError
| RuntimeError (msg : string).

(** The result of a Python call: a value, or a raised exception. *)
Inductive Res (A : Type) : Type :=
| Ret (a : A)
| Raise (e : PyExn).
Arguments Ret {A} a.
Arguments Raise {A} e.

(** ** Python float operations *)

Module PyFloat.
Open Scope float_scope.

(** [a < b] and [a > b] on floats; both are false when an operand is NaN. *)
Definition lt (a b : float) : bool := PrimFloat.ltb a b.
Definition gt (a b : float) : bool := PrimFloat.ltb b a.

(** [max(a, b)]: the builtin keeps [a] unless [b > a]. *)
Definition max (a b : float) : float := if gt b a then b else a.

(** [min(a, b)]: the builtin keeps [a] unless [b < a]. *)
Definition min (a b : float) : float := if lt b a then b else a.

(** [min(c :: cs)] on a non-empty list, scanning left to right. *)
Fixpoint min_from (m : float) (l : list float) : float :=
  match l with
  | [] => m
  | x :: l' => min_from (min m x) l'
  end.

(** [a / b]: Python raises on a zero divisor of either sign. *)
Definition div (a b : float) : Res float :=
  if PrimFloat.eqb b 0 then Raise ZeroDivisionError else Ret (a / b).

Definition is_finite (x : float) : bool :=
  match Prim2SF x with
  | S754_zero _ | S754_finite _ _ _ => true
  | _ => false
  end.
End PyFloat.

(** ** state.py *)

Record State : Type := mkState {
  origin : PyVal;
  destination : PyVal;
  transport : PyVal;
  booking_confirmed : bool
}.

(** [State()] *)
Definition State0 : State := mkState PyNone PyNone PyNone false.

Definition is_goal (s : State) : bool := booking_confirmed s.

(** [hash(s)] hashes the tuple of the four fields and raises [TypeError]
    when one of them is unhashable. *)
Definition state_hashable (s : State) : bool :=
  hashable (origin s) && hashable (destination s) && hashable (transport s).

(** The dataclass [__eq__]: the tuples of fields are compared. *)
Definition state_eq (a b : State) : bool :=
  py_eq (origin a) (origin b) && py_eq (destination a) (destination b)
  && py_eq (transport a) (transport b)
  && Bool.eqb (booking_confirmed a) (booking_confirmed b).

(** [setattr(s, field, v)] *)
Definition set_origin_attr (s : State) (v : PyVal) : State :=
  mkState v (destination s) (transport s) (booking_confirmed s).
Definition set_destination_attr (s : State) (v : PyVal) : State :=
  mkState (origin s) v (transport s) (booking_confirmed s).
Definition set_transport_attr (s : State) (v : PyVal) : State :=
  mkState (origin s) (destination s) v (booking_confirmed s).
Definition set_booking_confirmed_attr (s : State) (b : bool) : State :=
  mkState (origin s) (destination s) (transport s) b.

(** ** tool.py *)

(** An effect mutates the state it is given and may raise; it is a function
    from the state before to the outcome and the state after. *)
Record Tool : Type := mkTool {
  name : string;
  description : string;
  cost : float;
  precondition : State -> bool;
  effect : State -> list PyVal -> Res unit * State;
  arg_names : list string
}.

(** [Tool.__call__(self, state, *args)] *)
Definition Tool_call (t : Tool) (s : State) (args : list PyVal)
  : Res bool * State :=
  if negb (precondition t s)
  then (Raise (ValueError ("Precondition failed for " ++ name t)), s)
  else match effect t s args with
       | (Raise e, s') => (Raise e, s')
       | (Ret _, s') => (Ret true, s')
       end.

(** ** tool_list.py *)

(** [lambda s, args: setattr(s, field, args[0])]: [args[0]] is evaluated
    first and raises [IndexError] on the empty tuple. *)
Definition setattr_arg0 (set : State -> PyVal -> State)
  (s : State) (args : list PyVal) : Res unit * State :=
  match args with
  | [] => (Raise IndexError, s)
  | a :: _ => (Ret tt, set s a)
  end.

Definition set_origin : Tool :=
  mkTool "set_origin" "Set the origin city for travel" 1.0
    (fun s => is_none (origin s))
    (setattr_arg0 set_origin_attr)
    ["city"].

Definition set_destination : Tool :=
  mkTool "set_destination" "Set the destination city" 1.0
    (fun s => negb (is_none (origin s)) && is_none (destination s))
    (setattr_arg0 set_destination_attr)
    ["city"].

Definition select_transport : Tool :=
  mkTool "select_transport" "Choose a transport mode (e.g. train, flight)" 1.2
    (fun s => negb (is_none (destination s)) && is_none (transport s))
    (setattr_arg0 set_transport_attr)
    ["mode"].

Definition confirm_booking : Tool :=
  mkTool "confirm_booking" "Finalize the booking and mark as confirmed" 2.0
    (fun s => negb (is_none (transport s)) && negb (booking_confirmed s))
    (fun s _ => (Ret tt, set_booking_confirmed_attr s true))
    [].

Definition TOOLS : list Tool :=
  [set_origin; set_destination; select_transport; confirm_booking].

(** ** The heuristic (identical in planner.py and planner_viz.py) *)

(** [[t for t in TOOLS if t.precondition(state)]] *)
Definition applicable (s : State) : list Tool :=
  filter (fun t => precondition t s) TOOLS.

Definition heuristic (s : State) : float :=
  if booking_confirmed s then 0%float
  else match map cost (applicable s) with
       | [] => 0%float
       | c :: cs => PyFloat.min_from c cs
       end.

(** ** The external world: the language model and the random generator *)

(** What [float(out)] makes of the reply to [predict_success]'s request:
    the call itself failed (so [call_gpt] returned its default), the text is
    no float literal ([ValueError]), or it is one (any binary64 value:
    [float] also reads "nan", "inf", "-3" and "7.5"). *)
Inductive ProbReply : Type :=
| ProbFailed
| ProbUnparsable
| ProbFloat (p : float).

(** What [eval(raw)] and [tuple(c)] make of the reply to [propose_args]'s
    request: the call failed (or the text is "error"), evaluation raised or
    gave something that is no list of iterables, or a list of tuples.
    This is all there is to a reply whose evaluation comes back and changes
    nothing, such as a literal; [Evaluation] below describes the replies
    that do more. *)
Inductive ArgsReply : Type :=
| ArgsFailed
| ArgsMalformed
| ArgsTuples (l : list (list PyVal)).

(** What [json.loads(raw)] makes of the reply to [propose_tools]'s request:
    the call failed, the text does not parse into items with a ["p"] that
    [float] accepts, or a list of items [(item.get("name"), float(p))]. *)
Inductive RankReply : Type :=
| RankFailed
| RankMalformed
| RankItems (l : list (PyVal * float)).

(** The model behind [call_gpt]; its first argument is the number of calls
    made before, so a reply may depend on the whole history. *)
Record Oracle : Type := mkOracle {
  rank_reply : nat -> State -> string -> list Tool -> RankReply;
  args_reply : nat -> Tool -> State -> string -> ArgsReply;
  prob_reply : nat -> State -> Tool -> list PyVal -> ProbReply
}.

(** The counters the planners advance: calls of [call_gpt] and draws of
    [random.random()]. *)
Record World : Type := mkWorld {
  gpt_calls : nat;
  draws : nat
}.

(** Computations that read the oracle and the generator. *)
Definition P (A : Type) : Type := World -> A * World.

Definition ret {A : Type} (a : A) : P A := fun w => (a, w).

Definition bind {A B : Type} (c : P A) (k : A -> P B) : P B :=
  fun w => let (a, w') := c w in k a w'.

Notation "x <- c ;; k" := (bind c (fun x => k))
  (at level 61, c at next level, right associativity).

Fixpoint mapP {A B : Type} (fn : A -> P B) (l : list A) : P (list B) :=
  match l with
  | [] => ret []
  | a :: l' => b <- fn a ;; bs <- mapP fn l' ;; ret (b :: bs)
  end.

(** ** CITY_RE on ASCII text

    The pattern is one capitalised word, [[A-Z][a-z]+], followed by any
    number of groups made of one whitespace character and one more
    capitalised word. *)

Module CityRe.
Definition is_upper (c : ascii) : bool :=
  let n := nat_of_ascii c in (65 <=? n)%nat && (n <=? 90)%nat.
Definition is_lower (c : ascii) : bool :=
  let n := nat_of_ascii c in (97 <=? n)%nat && (n <=? 122)%nat.
(** [\s] *)
Definition is_space (c : ascii) : bool :=
  let n := nat_of_ascii c in
  ((9 <=? n)%nat && (n <=? 13)%nat) || ((28 <=? n)%nat && (n <=? 32)%nat).

(** [[a-z]*], greedy: the letters taken and the rest. *)
Fixpoint lowers (s : string) : string * string :=
  match s with
  | String c s' =>
      if is_lower c then let (w, r) := lowers s' in (String c w, r)
      else (EmptyString, s)
  | EmptyString => (EmptyString, EmptyString)
  end.

(** [[A-Z][a-z]+] at the head of [s]. *)
Definition word (s : string) : option (string * string) :=
  match s with
  | String c s' =>
      if is_upper c then
        match lowers s' with
        | (EmptyString, _) => None
        | (w, r) => Some (String c w, r)
        end
      else None
  | EmptyString => None
  end.

(** The repeated group (whitespace, capitalised word), greedy. *)
Fixpoint words (fuel : nat) (s : string) : string * string :=
  match fuel with
  | O => (EmptyString, s)
  | S n =>
      match s with
      | String sp s' =>
          if is_space sp then
            match word s' with
            | Some (w, r) =>
                let (ws, r') := words n r in (String sp (w ++ ws)%string, r')
            | None => (EmptyString, s)
            end
          else (EmptyString, s)
      | EmptyString => (EmptyString, s)
      end
  end.

(** A match of the whole pattern at the head of [s]. *)
Definition match_here (s : string) : option (string * string) :=
  match word s with
  | Some (w, r) =>
      let (ws, r') := words (String.length r) r in Some ((w ++ ws)%string, r')
  | None => None
  end.

Fixpoint findall_from (fuel : nat) (s : string) : list string :=
  match fuel with
  | O => []
  | S n =>
      match s with
      | EmptyString => []
      | String _ s' =>
          match match_here s with
          | Some (m, rest) => m :: findall_from n rest
          | None => findall_from n s'
          end
      end
  end.

(** [CITY_RE.findall(text)]: the non-overlapping matches, left to right. *)
Definition findall (text : string) : list string :=
  findall_from (String.length text) text.
End CityRe.

Definition TRANSPORT_MODES : list string := ["train"; "flight"; "bus"].

(** [seen = set(); [c for c in cities if not (c in seen or seen.add(c))]] *)
Fixpoint dedup (seen : list string) (l : list string) : list string :=
  match l with
  | [] => []
  | c :: l' =>
      if existsb (String.eqb c) seen then dedup seen l'
      else c :: dedup (c :: seen) l'
  end.

(** [(c,)] *)
Definition tuple1 (c : string) : list PyVal := [PyStr c].

(** [xs or default] on lists *)
Definition list_or {A : Type} (xs default : list A) : list A :=
  match xs with [] => default | _ :: _ => xs end.

(** The branch of [propose_args] taken when the model gave no candidate. *)
Definition fallback_args (t : Tool) (user_question : string)
  : list (list PyVal) :=
  let cities := dedup [] (CityRe.findall user_question) in
  if name t =? "set_origin" then
    list_or (map tuple1 (firstn 3 cities)) [tuple1 "New York"]
  else if name t =? "set_destination" then
    list_or (map tuple1 (firstn 3 (skipn 1 cities))) [tuple1 "Boston"]
  else if name t =? "select_transport" then
    map tuple1 TRANSPORT_MODES
  else [[]].

(** ** Helpers shared by the two planners *)

Section Helpers.
Variable oracle : Oracle.
(** [random k] is the value of the [k]-th call of [random.random()]. *)
Variable random : nat -> float.

Definition call_gpt_prob (s : State) (t : Tool) (args : list PyVal)
  : P ProbReply :=
  fun w => (prob_reply oracle (gpt_calls w) s t args,
            mkWorld (S (gpt_calls w)) (draws w)).

Definition call_gpt_args (t : Tool) (s : State) (q : string) : P ArgsReply :=
  fun w => (args_reply oracle (gpt_calls w) t s q,
            mkWorld (S (gpt_calls w)) (draws w)).

Definition call_gpt_rank (s : State) (q : string) (cands : list Tool)
  : P RankReply :=
  fun w => (rank_reply oracle (gpt_calls w) s q cands,
            mkWorld (S (gpt_calls w)) (draws w)).

(** [random.uniform(a, b)], which is [a + (b - a) * self.random()]. *)
Definition random_uniform (a b : float) : P float :=
  fun w => ((a + (b - a) * random (draws w))%float,
            mkWorld (gpt_calls w) (S (draws w))).

(** [predict_success]: the default [str(random.uniform(0.4, 0.9))] is
    computed before the call, and [float] reads it back unchanged. *)
Definition predict_success (s : State) (t : Tool) (args : list PyVal)
  : P float :=
  default <- random_uniform 0.4 0.9 ;;
  out <- call_gpt_prob s t args ;;
  match out with
  | ProbFailed => ret default
  | ProbFloat p => ret p
  | ProbUnparsable => random_uniform 0.4 0.9
  end.

(** [propose_args] (the two files differ in the prompt only), on a parsed
    reply; [Eval.propose_args] is the function with the evaluation. *)
Definition propose_args (t : Tool) (s : State) (user_question : string)
  : P (list (list PyVal)) :=
  raw <- call_gpt_args t s user_question ;;
  let candidates :=
    match raw with ArgsTuples l => l | _ => [] end in
  let candidates :=
    match candidates with
    | [] => fallback_args t user_question
    | _ :: _ => candidates
    end in
  ret (firstn 3 candidates).
End Helpers.

(** ** Search nodes and the OPEN list *)

Definition Plan : Type := list (Tool * list PyVal).

(** [Node]; the dataclass orders nodes by [f] alone. *)
Record Node : Type := mkNode {
  f : float;
  g : float;
  state : State;
  plan : Plan
}.

Definition node_lt (a b : Node) : bool := PyFloat.lt (f a) (f b).

(** OPEN, the list that [heapq] manages.  [heappop] hands out a node of
    least [f]; the list is modelled as a queue from which the first such
    node is removed.  Both planners keep at most one node in OPEN
    ([open_at_most_one] below), where this and the binary heap agree. *)
Definition heappush (h : list Node) (n : Node) : list Node := h ++ [n].

Fixpoint pop_least (m : Node) (l : list Node) : Node * list Node :=
  match l with
  | [] => (m, [])
  | x :: l' =>
      if node_lt x m
      then let (r, rest) := pop_least x l' in (r, m :: rest)
      else let (r, rest) := pop_least m l' in (r, x :: rest)
  end.

Definition heappop (h : list Node) : option (Node * list Node) :=
  match h with
  | [] => None
  | n :: l => Some (pop_least n l)
  end.

(** The tuple [best] of the expansion loops.  planner.py's tuple has no
    tool component; there [b_tool] is the one tool of the expansion. *)
Record Best : Type := mkBest {
  b_f : float;
  b_g : float;
  b_state : State;
  b_plan : Plan;
  b_tool : Tool;
  b_args : list PyVal;
  b_prob : float;
  b_combined_p : float
}.

(** [if (best is None) or (f_new < best[0]): best = new] *)
Definition update_best (best : option Best) (new : Best) : option Best :=
  match best with
  | None => Some new
  | Some b => if PyFloat.lt (b_f new) (b_f b) then Some new else best
  end.

(** The state of the [while] loop. *)
Record Config : Type := mkConfig {
  open_set : list Node;
  closed : list State;
  world : World
}.

(** One turn of the loop either goes on or ends the search. *)
Inductive Turn : Type :=
| Running (c : Config)
| Finished (r : Res Plan).

(** [name2tool[n]] for [name2tool = {t.name: t for t in candidates}]: the
    last tool of a name wins. *)
Definition name2tool (candidates : list Tool) (n : string) : option Tool :=
  find (fun t => name t =? n) (rev candidates).

(** [max(0.0, min(1.0, p))] *)
Definition clamp01 (p : float) : float :=
  PyFloat.max 0 (PyFloat.min 1 p).

(** The loop over [data] of [propose_tools]; [None] when an item raises
    (an unhashable name tested against the dictionary). *)
Fixpoint rank_items (candidates : list Tool) (items : list (PyVal * float))
  : option (list (Tool * float)) :=
  match items with
  | [] => Some []
  | (nm, p) :: rest =>
      if negb (hashable nm) then None
      else
        match rank_items candidates rest with
        | None => None
        | Some ranked =>
            match nm with
            | PyStr n =>
                match name2tool candidates n with
                | Some t => Some ((t, clamp01 p) :: ranked)
                | None => Some ranked
                end
            | _ => Some ranked
            end
        end
  end.

(** [ranked] as the [try] block of [propose_tools] leaves it. *)
Definition ranked_of_reply (candidates : list Tool) (raw : RankReply)
  : list (Tool * float) :=
  match raw with
  | RankItems items =>
      match rank_items candidates items with
      | Some ranked => ranked
      | None => []
      end
  | _ => []
  end.

(** ** planner_viz.py: class Planner

    The search on parsed replies; [Eval] has it with the evaluation. *)

Module Planner.

(** [heuristic_rank], the fallback score of a tool. *)
Definition heuristic_rank (s : State) (t : Tool) : float :=
  let score :=
    if (name t =? "confirm_booking") && truthy (transport s)
       && truthy (origin s) && truthy (destination s) then 0.95%float
    else if (name t =? "select_transport") && truthy (origin s)
       && truthy (destination s) && negb (truthy (transport s)) then 0.85%float
    else if (name t =? "set_destination") && truthy (origin s)
       && negb (truthy (destination s)) then 0.75%float
    else if (name t =? "set_origin") && negb (truthy (origin s)) then 0.70%float%float
    else 0.5%float in
  (score - 0.01 * cost t)%float.

(** [sorted(..., key=lambda x: x[1], reverse=True)]: descending, and
    stable (equal scores keep their order); the scores are never NaN. *)
Fixpoint insert_desc (x : Tool * float) (l : list (Tool * float))
  : list (Tool * float) :=
  match l with
  | [] => [x]
  | y :: l' =>
      if PyFloat.lt (snd y) (snd x) then x :: y :: l'
      else y :: insert_desc x l'
  end.

Definition sorted_desc (l : list (Tool * float)) : list (Tool * float) :=
  fold_left (fun acc x => insert_desc x acc) l [].

Section Search.
Variable oracle : Oracle.
Variable random : nat -> float.

Definition propose_tools (s : State) (user_question : string)
  (top_k : nat) : P (list (Tool * float)) :=
  let candidates := applicable s in
  match candidates with
  | [] => ret []
  | _ :: _ =>
      raw <- call_gpt_rank oracle s user_question candidates ;;
      let ranked := ranked_of_reply candidates raw in
      let ranked :=
        match ranked with
        | [] => sorted_desc
                  (map (fun t => (t, heuristic_rank s t)) candidates)
        | _ :: _ => ranked
        end in
      ret (firstn top_k ranked)
  end.

(** The loop [for args, prob in zip(arg_candidates, probs)]. *)
Fixpoint eval_args (node : Node) (tool : Tool) (tool_prior : float)
  (cands : list (list PyVal * float)) (best : option Best)
  : Res (option Best) :=
  match cands with
  | [] => Ret best
  | (args, prob) :: rest =>
      (* sim_state = State(asdict(node.state)), a copy *)
      match Tool_call tool (state node) args with
      | (Raise _, _) => eval_args node tool tool_prior rest best
      | (Ret _, sim_state) =>
          let combined_p := PyFloat.max 1e-9 (prob * tool_prior) in
          let g_new := (g node + cost tool)%float in
          match PyFloat.div (heuristic sim_state) combined_p with
          | Raise e => Raise e
          | Ret h_new =>
              let f_new := (g_new + h_new)%float in
              let new_plan := plan node ++ [(tool, args)] in
              eval_args node tool tool_prior rest
                (update_best best
                   (mkBest f_new g_new sim_state new_plan tool args
                      prob combined_p))
          end
      end
  end.

(** The loop [for tool, tool_prior in tool_candidates]. *)
Fixpoint eval_tools (node : Node) (user_question : string)
  (tool_candidates : list (Tool * float)) (best : option Best)
  : P (Res (option Best)) :=
  match tool_candidates with
  | [] => ret (Ret best)
  | (tool, tool_prior) :: rest =>
      if negb (precondition tool (state node))
      then eval_tools node user_question rest best
      else
        arg_candidates <-
          propose_args oracle tool (state node) user_question ;;
        probs <-
          mapP (predict_success oracle random (state node) tool)
            arg_candidates ;;
        match eval_args node tool tool_prior
                (combine arg_candidates probs) best with
        | Raise e => ret (Raise e)
        | Ret best' => eval_tools node user_question rest best'
        end
  end.

(** One turn of [while open_set]; an empty OPEN ends the loop and the
    final [raise] is reached. *)
Definition astar_turn (user_question : string) (c : Config) : Turn :=
  match heappop (open_set c) with
  | None => Finished (Raise (RuntimeError "No plan found"))
  | Some (node, open') =>
      if negb (state_hashable (state node)) then Finished (Raise TypeError)
      else if existsb (state_eq (state node)) (closed c)
      then Running (mkConfig open' (closed c) (world c))
      else
        let closed' := state node :: closed c in
        if is_goal (state node) then Finished (Ret (plan node))
        else
          let (tool_candidates, w1) :=
            propose_tools (state node) user_question 3 (world c) in
          match tool_candidates with
          | [] => Running (mkConfig open' closed' w1)
          | _ :: _ =>
              let (r, w2) :=
                eval_tools node user_question tool_candidates None w1 in
              match r with
              | Raise e => Finished (Raise e)
              | Ret None => Running (mkConfig open' closed' w2)
              | Ret (Some b) =>
                  Running
                    (mkConfig
                       (heappush open'
                          (mkNode (b_f b) (b_g b) (b_state b) (b_plan b)))
                       closed' w2)
              end
          end
  end.

(** The loop, cut after [fuel] turns ([None]: still running). *)
Fixpoint astar_loop (fuel : nat) (user_question : string) (c : Config)
  : option (Res Plan) :=
  match fuel with
  | O => None
  | S n =>
      match astar_turn user_question c with
      | Finished r => Some r
      | Running c' => astar_loop n user_question c'
      end
  end.

Definition root (initial_state : State) : Node :=
  mkNode (heuristic initial_state) 0 initial_state [].

Definition start (w : World) (initial_state : State) : Config :=
  mkConfig (heappush [] (root initial_state)) [] w.

(** [astar], entered in world [w]. *)
Definition astar (fuel : nat) (w : World) (initial_state : State)
  (user_question : string) : option (Res Plan) :=
  astar_loop fuel user_question (start w initial_state).
End Search.
End Planner.

(** ** planner.py: class planner

    The search on parsed replies; [Eval] has it with the evaluation. *)

Module planner.
Section Search.
Variable oracle : Oracle.
Variable random : nat -> float.

(** This [propose_tools] has no fallback ranking. *)
Definition propose_tools (s : State) (user_question : string)
  (top_k : nat) : P (list (Tool * float)) :=
  let candidates := applicable s in
  match candidates with
  | [] => ret []
  | _ :: _ =>
      raw <- call_gpt_rank oracle s user_question candidates ;;
      let ranked := ranked_of_reply candidates raw in
      ret (firstn top_k ranked)
  end.

(** The loop [for args in self.propose_args(...)]; the probability is
    asked for after the simulation succeeded, and the product is used
    as the divisor as it is. *)
Fixpoint eval_args (node : Node) (tool : Tool) (tool_prior : float)
  (cands : list (list PyVal)) (best : option Best)
  : P (Res (option Best)) :=
  match cands with
  | [] => ret (Ret best)
  | args :: rest =>
      match Tool_call tool (state node) args with
      | (Raise _, _) => eval_args node tool tool_prior rest best
      | (Ret _, sim_state) =>
          prob <- predict_success oracle random (state node) tool args ;;
          let combined_p := (prob * tool_prior)%float in
          let g_new := (g node + cost tool)%float in
          match PyFloat.div (heuristic sim_state) combined_p with
          | Raise e => ret (Raise e)
          | Ret h_new =>
              let f_new := (g_new + h_new)%float in
              let new_plan := plan node ++ [(tool, args)] in
              eval_args node tool tool_prior rest
                (update_best best
                   (mkBest f_new g_new sim_state new_plan tool args
                      prob combined_p))
          end
      end
  end.

Definition astar_turn (user_question : string) (c : Config) : Turn :=
  match heappop (open_set c) with
  | None => Finished (Raise (RuntimeError "No plan found"))
  | Some (node, open') =>
      if negb (state_hashable (state node)) then Finished (Raise TypeError)
      else if existsb (state_eq (state node)) (closed c)
      then Running (mkConfig open' (closed c) (world c))
      else
        let closed' := state node :: closed c in
        if is_goal (state node) then Finished (Ret (plan node))
        else
          let (tool_candidates, w1) :=
            propose_tools (state node) user_question 3 (world c) in
          match tool_candidates with
          | [] => Finished (Raise IndexError)   (* tool_candidates[0] *)
          | (tool, tool_prior) :: _ =>
              if negb (precondition tool (state node))
              then Running (mkConfig open' closed' w1)
              else
                let (arg_candidates, w2) :=
                  propose_args oracle tool (state node) user_question w1 in
                let (r, w3) :=
                  eval_args node tool tool_prior arg_candidates None w2 in
                match r with
                | Raise e => Finished (Raise e)
                | Ret None => Running (mkConfig open' closed' w3)
                | Ret (Some b) =>
                    Running
                      (mkConfig
                         (heappush open'
                            (mkNode (b_f b) (b_g b) (b_state b)
                               (b_plan b)))
                         closed' w3)
                end
          end
  end.

Fixpoint astar_loop (fuel : nat) (user_question : string) (c : Config)
  : option (Res Plan) :=
  match fuel with
  | O => None
  | S n =>
      match astar_turn user_question c with
      | Finished r => Some r
      | Running c' => astar_loop n user_question c'
      end
  end.

Definition astar (fuel : nat) (w : World) (initial_state : State)
  (user_question : string) : option (Res Plan) :=
  astar_loop fuel user_question (Planner.start w initial_state).
End Search.
End planner.

(** ** Replaying a plan (the loops of [main] and [Executor.run_plan]) *)

(** [for tool, args in plan: tool(exec_state, *args)]: the first call that
    raises ends the replay. *)
Fixpoint replay (p : Plan) (s : State) : Res unit * State :=
  match p with
  | [] => (Ret tt, s)
  | (tool, args) :: rest =>
      match Tool_call tool s args with
      | (Raise e, s') => (Raise e, s')
      | (Ret _, s') => replay rest s'
      end
  end.

(** The sum of the costs along a plan, accumulated as the search does. *)
Definition plan_cost (p : Plan) : float :=
  fold_left (fun acc step => (acc + cost (fst step))%float) p 0%float.

(** ** Some oracles *)

(** Every call of [call_gpt] fails. *)
Definition failing_oracle : Oracle :=
  mkOracle (fun _ _ _ _ => RankFailed) (fun _ _ _ _ => ArgsFailed)
           (fun _ _ _ _ => ProbFailed).

Definition w0 : World := mkWorld 0 0.

Definition question : string := "Book a train from New York to Boston".

(** The ranking names [set_origin], one candidate tuple is proposed, and
    the success probability read from the reply is [p]. *)
Definition fixed_prob_oracle (p : float) : Oracle :=
  mkOracle (fun _ _ _ _ => RankItems [(PyStr "set_origin", 1%float)])
           (fun _ _ _ _ => ArgsTuples [[PyStr "New York"]])
           (fun _ _ _ _ => ProbFloat p).

(** The ranking fails; the proposed candidate is the empty tuple. *)
Definition empty_tuple_oracle : Oracle :=
  mkOracle (fun _ _ _ _ => RankFailed)
           (fun _ _ _ _ => ArgsTuples [[]])
           (fun _ _ _ _ => ProbFailed).

Definition half : nat -> float := fun _ => 0.5%float.

(** ** Vocabulary of the statements *)

(** Every step of the plan finds its tool's precondition true, the steps
    being applied in order from [s]. *)
Fixpoint preconditions_hold (p : Plan) (s : State) : bool :=
  match p with
  | [] => true
  | (tool, args) :: rest =>
      precondition tool s
      && preconditions_hold rest (snd (effect tool s args))
  end.

(** What the search promises of a node: its plan replays from the initial
    state into its state, and its [g] is the cost of its plan. *)
Definition node_ok (initial_state : State) (n : Node) : Prop :=
  replay (plan n) initial_state = (Ret tt, state n)
  /\ g n = plan_cost (plan n).

(** The loop's configuration after [k] turns, if it is still running. *)
Fixpoint turns (turn : Config -> Turn) (k : nat) (c : Config)
  : option Config :=
  match k with
  | O => Some c
  | S k' =>
      match turn c with
      | Running c' => turns turn k' c'
      | Finished _ => None
      end
  end.

(** The successor that planner_viz.py evaluates for one argument tuple. *)
Definition successor (node : Node) (tool : Tool) (tool_prior : float)
  (cand : list PyVal * float) : list Best :=
  let (args, prob) := cand in
  match Tool_call tool (state node) args with
  | (Raise _, _) => []
  | (Ret _, sim_state) =>
      let combined_p := PyFloat.max 1e-9 (prob * tool_prior) in
      let g_new := (g node + cost tool)%float in
      [mkBest (g_new + heuristic sim_state / combined_p)%float g_new
         sim_state (plan node ++ [(tool, args)]) tool args prob combined_p]
  end.

(** All successors of one expansion: every ranked tool whose precondition
    holds, with every argument tuple proposed for it, in order. *)
Fixpoint all_successors (oracle : Oracle) (random : nat -> float)
  (node : Node) (user_question : string) (ranked : list (Tool * float))
  : P (list Best) :=
  match ranked with
  | [] => ret []
  | (tool, tool_prior) :: rest =>
      if negb (precondition tool (state node))
      then all_successors oracle random node user_question rest
      else
        arg_candidates <-
          propose_args oracle tool (state node) user_question ;;
        probs <-
          mapP (predict_success oracle random (state node) tool)
            arg_candidates ;;
        more <- all_successors oracle random node user_question rest ;;
        ret (flat_map (successor node tool tool_prior)
               (combine arg_candidates probs) ++ more)
  end.

(** One best among candidates met in order: the first of least [f]. *)
Definition select (cands : list Best) : option Best :=
  fold_left update_best cands None.

Definition node_of (b : Best) : Node :=
  mkNode (b_f b) (b_g b) (b_state b) (b_plan b).

(** The fields of a state that are still to be filled, plus the
    confirmation. *)
Definition todo (s : State) : nat :=
  (if is_none (origin s) then 1 else 0)
  + (if is_none (destination s) then 1 else 0)
  + (if is_none (transport s) then 1 else 0)
  + (if booking_confirmed s then 0 else 1).

(** OPEN holds at most one node, and that node is either already in
    CLOSED or has at most [4 - k] fields to fill. *)
Definition frontier (k : nat) (c : Config) : Prop :=
  open_set c = []
  \/ exists n, open_set c = [n]
       /\ (existsb (state_eq (state n)) (closed c) = true
           \/ todo (state n) + k <= 4).

(** [b] is the successor of [node] by one successful tool call. *)
Definition step_of (node : Node) (b : Best) : Prop :=
  Tool_call (b_tool b) (state node) (b_args b) = (Ret true, b_state b)
  /\ b_plan b = plan node ++ [(b_tool b, b_args b)]
  /\ b_g b = (g node + cost (b_tool b))%float.

(** What one expansion of planner_viz.py adds to OPEN: the node of the one
    best successor, or nothing when no candidate survived. *)
Definition expansion (oracle : Oracle) (random : nat -> float)
  (user_question : string) (node : Node) (w : World) : list Node * World :=
  let (ranked, w1) :=
    Planner.propose_tools oracle (state node) user_question 3 w in
  let (succs, w2) := all_successors oracle random node user_question ranked w1 in
  (match select succs with Some b => [node_of b] | None => [] end, w2).

(** The [while] loop over any turn function, cut after [fuel] turns. *)
Fixpoint loop (turn : Config -> Turn) (fuel : nat) (c : Config)
  : option (Res Plan) :=
  match fuel with
  | O => None
  | S n =>
      match turn c with
      | Finished r => Some r
      | Running c' => loop turn n c'
      end
  end.

(** What the two planners' turns have in common.  [E] holds of the
    exceptions that an expansion may let escape. *)
Definition turn_shape (E : PyExn -> Prop) (turn : Config -> Turn) : Prop :=
  forall c,
    (open_set c = []
     /\ turn c = Finished (Raise (RuntimeError "No plan found")))
    \/ exists node open', heappop (open_set c) = Some (node, open')
        /\ ((state_hashable (state node) = false
             /\ turn c = Finished (Raise TypeError))
            \/ (state_hashable (state node) = true
                /\ existsb (state_eq (state node)) (closed c) = true
                /\ turn c = Running (mkConfig open' (closed c) (world c)))
            \/ (state_hashable (state node) = true
                /\ existsb (state_eq (state node)) (closed c) = false
                /\ is_goal (state node) = true
                /\ turn c = Finished (Ret (plan node)))
            \/ (state_hashable (state node) = true
                /\ existsb (state_eq (state node)) (closed c) = false
                /\ is_goal (state node) = false
                /\ ((exists e, E e /\ turn c = Finished (Raise e))
                    \/ exists pushed w',
                        turn c = Running (mkConfig (open' ++ pushed)
                                            (state node :: closed c) w')
                        /\ (pushed = []
                            \/ exists b, pushed = [node_of b]
                                 /\ step_of node b
                                 /\ In (b_tool b) TOOLS)))).


(** Two tools are applicable in [two_tool_state]; the ranking puts
    [select_transport] first, but [set_origin] is given the better success
    probability. *)
Definition two_tool_state : State :=
  mkState PyNone (PyStr "Boston") PyNone false.

Definition two_tool_oracle : Oracle :=
  mkOracle
    (fun _ _ _ _ => RankItems [(PyStr "select_transport", 0.9%float);
                               (PyStr "set_origin", 0.8%float)])
    (fun _ t _ _ => if name t =? "set_origin"
                    then ArgsTuples [[PyStr "New York"]]
                    else ArgsTuples [[PyStr "train"]])
    (fun _ _ t _ => if name t =? "set_origin"
                    then ProbFloat 1 else ProbFloat 0.1).

(** The plans of the nodes on OPEN after a turn that goes on. *)
Definition plans_on_open (t : Turn) : option (list Plan) :=
  match t with
  | Running c => Some (map plan (open_set c))
  | Finished _ => None
  end.

(** The node that the first turn pushes under [failing_oracle] and equal
    draws. *)
Definition node_book : Node :=
  mkNode 3.2296544035674475 1 (mkState (PyStr "Book") PyNone PyNone false)
    [(set_origin, [PyStr "Book"])].

(** ** planner.py: the execution loop of [main] *)

(** [for i, (tool, args) in enumerate(plan, 1)]: a step is executed only
    when its tool's name is not yet a key of [tool_sequence], the
    dictionary (kept in insertion order) of the steps executed so far. *)
Fixpoint main_execute (p : Plan) (tool_sequence : list (string * list PyVal))
  (exec_state : State) : Res (list (string * list PyVal)) * State :=
  match p with
  | [] => (Ret tool_sequence, exec_state)
  | (tool, args) :: rest =>
      if existsb (fun kv => fst kv =? name tool) tool_sequence
      then main_execute rest tool_sequence exec_state
      else
        match Tool_call tool exec_state args with
        | (Raise e, s') => (Raise e, s')
        | (Ret _, s') =>
            main_execute rest (tool_sequence ++ [(name tool, args)]) s'
        end
  end.

(** ** execute.py: class Executor *)

(** A snapshot row of [history]. *)
Record Row : Type := mkRow {
  row_Step : nat;
  row_Tool : string;
  row_Args : string;
  row_Origin : PyVal;
  row_Destination : PyVal;
  row_Transport : PyVal;
  row_Confirmed : bool
}.

Record Executor : Type := mkExecutor {
  exe_state : State;
  history : list Row
}.

(** [Executor(initial_state)]: [initial_state or State()]. *)
Definition Executor_init (initial_state : option State) : Executor :=
  mkExecutor (match initial_state with Some s => s | None => State0 end) [].

Section Execute.
(** [str(args)], the text of an argument tuple. *)
Variable str_args : list PyVal -> string.

(** [run_step]: the call raises when the precondition fails, and then no
    row is appended. *)
Definition run_step (step_idx : nat) (tool : Tool) (args : list PyVal)
  (exe : Executor) : Res unit * Executor :=
  match Tool_call tool (exe_state exe) args with
  | (Raise e, s') => (Raise e, mkExecutor s' (history exe))
  | (Ret _, s') =>
      (Ret tt,
       mkExecutor s'
         (history exe
          ++ [mkRow step_idx (name tool) (str_args args) (origin s')
                (destination s') (transport s') (booking_confirmed s')]))
  end.

(** The loop of [run_plan] from index [idx] on;
    [enumerate(plan, start=1)] starts it at 1. *)
Fixpoint run_plan_from (idx : nat) (p : Plan) (exe : Executor)
  : Res (list Row) * Executor :=
  match p with
  | [] => (Ret (history exe), exe)
  | (tool, args) :: rest =>
      match run_step idx tool args exe with
      | (Raise e, exe') => (Raise e, exe')
      | (Ret _, exe') => run_plan_from (S idx) rest exe'
      end
  end.

Definition run_plan (p : Plan) (exe : Executor) : Res (list Row) * Executor :=
  run_plan_from 1 p exe.
End Execute.

(** ** agent_execute.py: [state_to_dict] and [dict_diff] *)

(** A dictionary with string keys, in insertion order. *)
Definition PyDict : Type := list (string * PyVal).

(** [d.get(k)], which is [None] for a missing key. *)
Definition dict_get (d : PyDict) (k : string) : PyVal :=
  match find (fun kv => fst kv =? k) d with
  | Some kv => snd kv
  | None => PyNone
  end.

(** [asdict(s)] *)
Definition state_to_dict (s : State) : PyDict :=
  [("origin", origin s); ("destination", destination s);
   ("transport", transport s);
   ("booking_confirmed", PyBool (booking_confirmed s))].

(** [sorted(set(prev.keys()) | set(curr.keys()))]: the distinct keys in
    increasing order, built by insertion. *)
Fixpoint insert_key (k : string) (l : list string) : list string :=
  match l with
  | [] => [k]
  | x :: l' =>
      match String.compare k x with
      | Lt => k :: l
      | Eq => l
      | Gt => x :: insert_key k l'
      end
  end.

Definition sorted_keys (prev curr : PyDict) : list string :=
  fold_right insert_key [] (map fst prev ++ map fst curr).

(** [dict_diff]; an entry [(k, (b, a))] stands for
    [diff[k] = {"before": b, "after": a}]. *)
Definition dict_diff (prev curr : PyDict) : list (string * (PyVal * PyVal)) :=
  flat_map
    (fun k =>
       if negb (py_eq (dict_get prev k) (dict_get curr k))
       then [(k, (dict_get prev k, dict_get curr k))]
       else [])
    (sorted_keys prev curr).

(** ** More vocabulary *)



(** The names of the tools of a plan, in order. *)
Definition tool_names (p : Plan) : list string :=
  map (fun step => name (fst step)) p.

(** A value between 0 and 1, as floats compare. *)
Definition in_unit_interval (x : float) : Prop :=
  PrimFloat.leb 0 x = true /\ PrimFloat.leb x 1 = true.

(** A one-element tuple holding a non-empty string. *)
Definition nonempty_string_tuple (args : list PyVal) : Prop :=
  exists c, args = [PyStr c] /\ c <> "".


(** The order of dictionary keys that [sorted] uses. *)
Definition key_lt (a b : string) : Prop := String.compare a b = Lt.

(** [diff.get(k)]: the entry of key [k] in a diff, if any. *)
Definition diff_get (d : list (string * (PyVal * PyVal))) (k : string)
  : option (PyVal * PyVal) :=
  option_map snd (find (fun e => fst e =? k) d).


(** The plan of the runs under equal draws. *)
Definition plan_book : Plan :=
  [(set_origin, [PyStr "Book"]); (set_destination, [PyStr "New York"]);
   (select_transport, [PyStr "train"]); (confirm_booking, [])].

(** The steps of a plan whose tool name occurs neither in [seen] nor in an
    earlier step of the plan. *)
Fixpoint first_by_name (seen : list string) (p : Plan) : Plan :=
  match p with
  | [] => []
  | (t, a) :: rest =>
      if existsb (String.eqb (name t)) seen
      then first_by_name seen rest
      else (t, a) :: first_by_name (seen ++ [name t]) rest
  end.

(** The entries [(name, args)] that [tool_sequence] gets for the steps. *)
Definition sequence_of (p : Plan) : list (string * list PyVal) :=
  map (fun step => (name (fst step), snd step)) p.

(** * Replies that are run

    [propose_args] hands the reply of the model to [eval], which runs it
    with the node's own [State] object in scope (besides the tool, the
    planner and the module's globals).  [ArgsReply] describes the replies
    whose evaluation returns and leaves these objects as they are, such as
    literals.  [Evaluation] adds what else an evaluation can do, as far as
    the search observes it through the [State]: it may leave the object
    with other field values, raise an exception that [except Exception]
    does not catch, or not return.  What an evaluation does to the other
    objects in scope is not described. *)

(** Exceptions that are no [Exception]. *)
Inductive PyBaseExn : Type :=
| SystemExit
| KeyboardInterrupt.

(** What [eval(raw)] and [tuple(c)] do: nothing is evaluated (the call
    failed, or the text is "error"); the value is a list of iterables and
    the [State] object is left as [s']; an [Exception] is raised, or the
    value is no list of iterables, with the object left as [s']; an
    exception escapes [propose_args]; the evaluation does not return. *)
Inductive Evaluation : Type :=
| EvSkipped
| EvTuples (l : list (list PyVal)) (s' : State)
| EvCaught (s' : State)
| EvEscapes (e : PyBaseExn)
| EvHangs.

(** The model behind [call_gpt], with the evaluation of its replies to
    [propose_args] in place of their parsed form. *)
Record EvalOracle : Type := mkEvalOracle {
  e_rank : nat -> State -> string -> list Tool -> RankReply;
  e_eval : nat -> Tool -> State -> string -> Evaluation;
  e_prob : nat -> State -> Tool -> list PyVal -> ProbReply
}.

(** The value of an evaluation, without its effects. *)
Definition reply_of (ev : Evaluation) : ArgsReply :=
  match ev with
  | EvSkipped => ArgsFailed
  | EvTuples l _ => ArgsTuples l
  | _ => ArgsMalformed
  end.

Definition plain (o : EvalOracle) : Oracle :=
  mkOracle (e_rank o) (fun k t s q => reply_of (e_eval o k t s q))
    (e_prob o).

(** The evaluation of a reply that has no effect, in state [s]. *)
Definition evaluation_of (r : ArgsReply) (s : State) : Evaluation :=
  match r with
  | ArgsFailed => EvSkipped
  | ArgsMalformed => EvCaught s
  | ArgsTuples l => EvTuples l s
  end.

Definition literal (o : Oracle) : EvalOracle :=
  mkEvalOracle (rank_reply o)
    (fun k t s q => evaluation_of (args_reply o k t s q) s) (prob_reply o).


(** A call that may also be left by a [PyBaseExn], or not at all. *)
Inductive Outcome (A : Type) : Type :=
| Done (a : A)
| Exits (e : PyBaseExn)
| Hangs.
Arguments Done {A} a.
Arguments Exits {A} e.
Arguments Hangs {A}.

(** [node], its [State] object having the field values [s] by now. *)
Definition at_state (node : Node) (s : State) : Node :=
  mkNode (f node) (g node) s (plan node).

(** CLOSED as a set of [State] objects.  [closed.add] files an object
    under the hash of the value it has then; an entry is the value that
    was hashed and the value that the object has now. *)
Record EConfig : Type := mkEConfig {
  e_open : list Node;
  e_closed : list (State * State);
  e_world : World
}.

(** [s in closed]: an entry is found when its stored hash is the hash of
    [s], taken here as equality with the value that was hashed, and the
    object, as it is now, equals [s]. *)
Definition in_closed (s : State) (cl : list (State * State)) : bool :=
  existsb (fun e => state_eq s (fst e) && state_eq s (snd e)) cl.

Inductive ETurn : Type :=
| ERunning (c : EConfig)
| EFinished (r : Res Plan)
| EExits (e : PyBaseExn)
| EHangs.

(** How a search ends, when it does. *)
Inductive Ending : Type :=
| Ends (r : Res Plan)
| Exited (e : PyBaseExn).

(** The two searches. *)
Inductive Variant : Type :=
| Viz
| Py.

Module Eval.
Section Search.
Variable oracle : EvalOracle.
Variable random : nat -> float.

(** [propose_args]: the candidates, and the [State] object as the
    evaluation leaves it. *)
Definition propose_args (t : Tool) (s : State) (user_question : string)
  : P (Outcome (list (list PyVal) * State)) :=
  fun w =>
    let w' := mkWorld (S (gpt_calls w)) (draws w) in
    match e_eval oracle (gpt_calls w) t s user_question with
    | EvSkipped => (Done (firstn 3 (fallback_args t user_question), s), w')
    | EvCaught s' =>
        (Done (firstn 3 (fallback_args t user_question), s'), w')
    | EvTuples l s' =>
        (Done (firstn 3 (match l with
                         | [] => fallback_args t user_question
                         | _ :: _ => l
                         end), s'), w')
    | EvEscapes e => (Exits e, w')
    | EvHangs => (Hangs, w')
    end.

(** planner_viz.py, the loop [for tool, tool_prior in tool_candidates];
    [cur] is the present value of [node.state], which every later test,
    prompt and copy reads. *)
Fixpoint Planner_eval_tools (node : Node) (cur : State)
  (user_question : string) (tool_candidates : list (Tool * float))
  (best : option Best) : P (Outcome (Res (option Best) * State)) :=
  match tool_candidates with
  | [] => ret (Done (Ret best, cur))
  | (tool, tool_prior) :: rest =>
      if negb (precondition tool cur)
      then Planner_eval_tools node cur user_question rest best
      else
        fun w =>
          match propose_args tool cur user_question w with
          | (Done (arg_candidates, cur'), w1) =>
              let (probs, w2) :=
                mapP (predict_success (plain oracle) random cur' tool)
                  arg_candidates w1 in
              match Planner.eval_args (at_state node cur') tool tool_prior
                      (combine arg_candidates probs) best with
              | Raise e => (Done (Raise e, cur'), w2)
              | Ret best' =>
                  Planner_eval_tools node cur' user_question rest best' w2
              end
          | (Exits e, w1) => (Exits e, w1)
          | (Hangs, w1) => (Hangs, w1)
          end
  end.

(** planner_viz.py, one turn of [while open_set]. *)
Definition Planner_astar_turn (user_question : string) (c : EConfig)
  : ETurn :=
  match heappop (e_open c) with
  | None => EFinished (Raise (RuntimeError "No plan found"))
  | Some (node, open') =>
      if negb (state_hashable (state node)) then EFinished (Raise TypeError)
      else if in_closed (state node) (e_closed c)
      then ERunning (mkEConfig open' (e_closed c) (e_world c))
      else if is_goal (state node) then EFinished (Ret (plan node))
      else
        let (tool_candidates, w1) :=
          Planner.propose_tools (plain oracle) (state node) user_question 3
            (e_world c) in
        match tool_candidates with
        | [] =>
            ERunning
              (mkEConfig open' ((state node, state node) :: e_closed c) w1)
        | _ :: _ =>
            let (r, w2) :=
              Planner_eval_tools node (state node) user_question
                tool_candidates None w1 in
            match r with
            | Hangs => EHangs
            | Exits e => EExits e
            | Done (Raise e, _) => EFinished (Raise e)
            | Done (Ret None, cur) =>
                ERunning
                  (mkEConfig open' ((state node, cur) :: e_closed c) w2)
            | Done (Ret (Some b), cur) =>
                ERunning
                  (mkEConfig (heappush open' (node_of b))
                     ((state node, cur) :: e_closed c) w2)
            end
        end
  end.

(** planner.py, one turn of [while open_set]. *)
Definition planner_astar_turn (user_question : string) (c : EConfig)
  : ETurn :=
  match heappop (e_open c) with
  | None => EFinished (Raise (RuntimeError "No plan found"))
  | Some (node, open') =>
      if negb (state_hashable (state node)) then EFinished (Raise TypeError)
      else if in_closed (state node) (e_closed c)
      then ERunning (mkEConfig open' (e_closed c) (e_world c))
      else if is_goal (state node) then EFinished (Ret (plan node))
      else
        let (tool_candidates, w1) :=
          planner.propose_tools (plain oracle) (state node) user_question 3
            (e_world c) in
        match tool_candidates with
        | [] => EFinished (Raise IndexError)
        | (tool, tool_prior) :: _ =>
            if negb (precondition tool (state node))
            then
              ERunning
                (mkEConfig open' ((state node, state node) :: e_closed c)
                   w1)
            else
              match propose_args tool (state node) user_question w1 with
              | (Done (arg_candidates, cur), w2) =>
                  let (r, w3) :=
                    planner.eval_args (plain oracle) random
                      (at_state node cur) tool tool_prior arg_candidates
                      None w2 in
                  match r with
                  | Raise e => EFinished (Raise e)
                  | Ret None =>
                      ERunning
                        (mkEConfig open' ((state node, cur) :: e_closed c)
                           w3)
                  | Ret (Some b) =>
                      ERunning
                        (mkEConfig (heappush open' (node_of b))
                           ((state node, cur) :: e_closed c) w3)
                  end
              | (Exits e, _) => EExits e
              | (Hangs, _) => EHangs
              end
        end
  end.

Definition astar_turn (v : Variant) : string -> EConfig -> ETurn :=
  match v with
  | Viz => Planner_astar_turn
  | Py => planner_astar_turn
  end.
End Search.

(** The [while] loop, cut after [fuel] turns; [None]: the search has not
    come back, be it that it still runs or that an evaluation hangs. *)
Fixpoint loop (turn : EConfig -> ETurn) (fuel : nat) (c : EConfig)
  : option Ending :=
  match fuel with
  | O => None
  | S n =>
      match turn c with
      | ERunning c' => loop turn n c'
      | EFinished r => Some (Ends r)
      | EExits e => Some (Exited e)
      | EHangs => None
      end
  end.

(** The configuration after [k] complete turns. *)
Fixpoint turns (turn : EConfig -> ETurn) (k : nat) (c : EConfig)
  : option EConfig :=
  match k with
  | O => Some c
  | S k' =>
      match turn c with
      | ERunning c' => turns turn k' c'
      | _ => None
      end
  end.

Definition start (w : World) (initial_state : State) : EConfig :=
  mkEConfig (heappush [] (Planner.root initial_state)) [] w.

(** [astar] of either file, entered in world [w]. *)
Definition astar (v : Variant) (oracle : EvalOracle) (random : nat -> float)
  (fuel : nat) (w : World) (initial_state : State) (user_question : string)
  : option Ending :=
  loop (astar_turn oracle random v user_question) fuel
    (start w initial_state).
End Eval.

(** ** Replies with effects *)

(** Every reply to [propose_args] is the text
    [[(setattr(state, 'transport', 'train') or 'New York',)]]: its
    evaluation sets the transport of the state in scope and gives one
    tuple.  The ranking, when it does not fail, puts [confirm_booking]
    first. *)
Definition setattr_oracle (ranked : bool) : EvalOracle :=
  mkEvalOracle
    (fun _ _ _ _ =>
       if ranked
       then RankItems [(PyStr "confirm_booking", 1%float);
                       (PyStr "set_origin", 1%float)]
       else RankFailed)
    (fun _ _ s _ =>
       EvTuples [[PyStr "New York"]] (set_transport_attr s (PyStr "train")))
    (fun _ _ _ _ => ProbFailed).

Definition two_step_plan : Plan :=
  [(set_origin, [PyStr "New York"]); (confirm_booking, [PyStr "New York"])].

(** The replies to [propose_args] undo what the other tool did: for
    [set_origin] the text
    [[(setattr(state, 'transport', None) or
       setattr(state, 'destination', 'd') or 'o',)]],
    for another tool [[(setattr(state, 'origin', None) or 't',)]]. *)
Definition undoing_oracle : EvalOracle :=
  mkEvalOracle
    (fun _ _ _ _ => RankItems [(PyStr "set_origin", 1%float);
                               (PyStr "select_transport", 1%float)])
    (fun _ t s _ =>
       if name t =? "set_origin"
       then EvTuples [[PyStr "o"]]
              (set_destination_attr (set_transport_attr s PyNone)
                 (PyStr "d"))
       else EvTuples [[PyStr "t"]] (set_origin_attr s PyNone))
    (fun _ _ _ _ => ProbFloat 1).

(** The value in which the evaluations of [undoing_oracle] leave every
    state. *)
Definition undone : State := mkState PyNone (PyStr "d") PyNone false.

(** The configurations of a search under [undoing_oracle]: one node on
    OPEN, and every object of CLOSED left as [undone]. *)
Definition undoing (c : EConfig) : Prop :=
  (exists n, e_open c = [n]
     /\ In (state n) [State0;
                      mkState (PyStr "o") (PyStr "d") PyNone false;
                      mkState PyNone (PyStr "d") (PyStr "t") false])
  /\ Forall (fun e => snd e = undone) (e_closed c).

(** ** The two models side by side *)





(** ** execute.py: [run_executor_on_question] *)


(** * Properties *)

(** ** Floats *)

Lemma lt_trans (a b c : float) :
  PyFloat.lt a b = true -> PyFloat.lt b c = true -> PyFloat.lt a c = true.
Proof.
  unfold PyFloat.lt. rewrite !ltb_spec. unfold SFltb.
  destruct (Prim2SF a) as [sa|sa| |sa ma ea],
           (Prim2SF b) as [sb|sb| |sb mb eb],
           (Prim2SF c) as [sc|sc| |sc mc ec]; simpl;
    try discriminate;
    try (destruct sa; try discriminate);
    try (destruct sb; try discriminate);
    try (destruct sc; try discriminate); try reflexivity.
  all: destruct (Z.compare_spec ea eb), (Z.compare_spec eb ec),
         (Z.compare_spec ea ec);
    try discriminate; try reflexivity; try lia; subst.
  all: rewrite ?Pos.compare_cont_spec; simpl.
  all: try (destruct (Pos.compare_spec ma mb), (Pos.compare_spec mb mc),
              (Pos.compare_spec ma mc);
            simpl; try discriminate; try reflexivity; try lia).
Qed.

Lemma lt_irrefl (a : float) : PyFloat.lt a a = false.
Proof.
  unfold PyFloat.lt. rewrite ltb_spec. unfold SFltb.
  destruct (Prim2SF a) as [s|s| |s m e]; simpl; try reflexivity;
    destruct s; try reflexivity;
    rewrite Z.compare_refl, Pos.compare_cont_spec, Pos.compare_refl;
    reflexivity.
Qed.

(** The floored divisor of planner_viz.py is never zero. *)
Lemma floor_nonzero (x : float) :
  PrimFloat.eqb (PyFloat.max 1e-9 x) 0 = false.
Proof.
  unfold PyFloat.max, PyFloat.gt.
  destruct (PrimFloat.ltb 1e-9 x) eqn:Hlt; [|reflexivity].
  rewrite ltb_spec in Hlt. rewrite FloatAxioms.eqb_spec.
  destruct (Prim2SF x) as [s|s| |s m e]; try destruct s; try reflexivity;
    vm_compute in Hlt; discriminate.
Qed.

Lemma div_floor (h x : float) :
  PyFloat.div h (PyFloat.max 1e-9 x) = Ret (h / PyFloat.max 1e-9 x)%float.
Proof. unfold PyFloat.div. now rewrite floor_nonzero. Qed.

(** A product with a zero factor (of either sign) is a zero or NaN, and the
    floor replaces it by the epsilon itself. *)
Lemma floor_of_zero_factor (x y : float) :
  PrimFloat.eqb x 0 = true \/ PrimFloat.eqb y 0 = true ->
  PyFloat.max 1e-9 (x * y) = 1e-9%float.
Proof.
  intros H. unfold PyFloat.max, PyFloat.gt.
  rewrite ltb_spec, mul_spec. rewrite !FloatAxioms.eqb_spec in H.
  destruct H as [H|H];
    destruct (Prim2SF x) as [s|s| |s m e], (Prim2SF y) as [s'|s'| |s' m' e'];
    try reflexivity; try (destruct s; discriminate H);
    try (destruct s'; discriminate H); try discriminate H.
Qed.

(** ** Tool calls and replay *)

Lemma Tool_call_ret (t : Tool) (s s' : State) (args : list PyVal) (b : bool) :
  Tool_call t s args = (Ret b, s') ->
  precondition t s = true /\ effect t s args = (Ret tt, s') /\ b = true.
Proof.
  unfold Tool_call. destruct (precondition t s); simpl; [|discriminate].
  destruct (effect t s args) as [[[]|e] s1]; intros H; inversion H; auto.
Qed.


Lemma plan_cost_snoc (p : Plan) (t : Tool) (args : list PyVal) :
  plan_cost (p ++ [(t, args)]) = (plan_cost p + cost t)%float.
Proof. unfold plan_cost. now rewrite fold_left_app. Qed.


(** ** OPEN *)



(** ** Every candidate kept as best extends the node's plan by one step *)

Lemma update_best_keeps (Q : Best -> Prop) (best : option Best)
  (new b : Best) :
  (forall b0, best = Some b0 -> Q b0) -> Q new ->
  update_best best new = Some b -> Q b.
Proof.
  intros Hbest Hnew. unfold update_best.
  destruct best as [b0|].
  - destruct (PyFloat.lt (b_f new) (b_f b0)); intros H; inversion H; subst; auto.
  - intros H; inversion H; subst; auto.
Qed.


(** ** One expansion of planner_viz.py *)

Lemma successor_step (node : Node) (tool : Tool) (prior : float)
  (cand : list PyVal * float) (b : Best) :
  In b (successor node tool prior cand) -> step_of node b /\ b_tool b = tool.
Proof.
  destruct cand as [args prob]. unfold successor.
  destruct (Tool_call tool (state node) args) as [[r|e] sim] eqn:Hc;
    simpl; [|tauto].
  intros [<-|[]]. apply Tool_call_ret in Hc as Hc'.
  destruct Hc' as (_ & _ & ->). unfold step_of; simpl. auto.
Qed.

Lemma all_successors_step (oracle : Oracle) (random : nat -> float)
  (node : Node) (q : string) (ranked : list (Tool * float)) (w : World)
  (b : Best) :
  In b (fst (all_successors oracle random node q ranked w)) ->
  step_of node b /\ exists prior, In (b_tool b, prior) ranked.
Proof.
  revert w. induction ranked as [|[tool prior] rest IH]; intros w; simpl.
  - intros [].
  - destruct (precondition tool (state node)); simpl.
    + unfold bind.
      destruct (propose_args oracle tool (state node) q w) as [args w1].
      destruct (mapP _ args w1) as [probs w2].
      destruct (all_successors oracle random node q rest w2) as [more w3] eqn:E.
      simpl. rewrite in_app_iff, in_flat_map. intros [(cand & _ & Hb)|Hb].
      * apply successor_step in Hb as [Hs <-]. split; [exact Hs|]. eauto.
      * specialize (IH w2). rewrite E in IH. destruct (IH Hb) as [Hs [p Hp]].
        split; [exact Hs|]. eauto.
    + intros Hb. destruct (IH w Hb) as [Hs [p Hp]]. split; [exact Hs|]. eauto.
Qed.

(** The inner loop folds [update_best] over the tool's successors and
    never raises: the divisor is floored. *)
Lemma eval_args_fold (node : Node) (tool : Tool) (prior : float)
  (cands : list (list PyVal * float)) (best : option Best) :
  Planner.eval_args node tool prior cands best
  = Ret (fold_left update_best (flat_map (successor node tool prior) cands)
           best).
Proof.
  revert best. induction cands as [|[args prob] rest IH]; intros best; simpl.
  - reflexivity.
  - destruct (Tool_call tool (state node) args) as [[r|e] sim]; simpl.
    + rewrite div_floor. apply IH.
    + apply IH.
Qed.

(** The two nested loops fold [update_best] once over all successors. *)
Lemma eval_tools_fold (oracle : Oracle) (random : nat -> float)
  (node : Node) (q : string) (ranked : list (Tool * float))
  (best : option Best) (w : World) :
  Planner.eval_tools oracle random node q ranked best w
  = (Ret (fold_left update_best
            (fst (all_successors oracle random node q ranked w)) best),
     snd (all_successors oracle random node q ranked w)).
Proof.
  revert best w. induction ranked as [|[tool prior] rest IH]; intros best w;
    simpl.
  - reflexivity.
  - destruct (precondition tool (state node)); simpl; [|apply IH].
    unfold bind.
    destruct (propose_args oracle tool (state node) q w) as [args w1].
    destruct (mapP _ args w1) as [probs w2].
    rewrite eval_args_fold, IH.
    destruct (all_successors oracle random node q rest w2) as [more w3].
    simpl. now rewrite fold_left_app.
Qed.

(** ** The selected best *)

Lemma fold_best_in (cands : list Best) (best : option Best) (b : Best) :
  fold_left update_best cands best = Some b -> best = Some b \/ In b cands.
Proof.
  revert best. induction cands as [|c cands IH]; intros best H; simpl in *.
  - auto.
  - apply IH in H as [H|H]; [|auto].
    unfold update_best in H. destruct best as [b0|].
    + destruct (PyFloat.lt (b_f c) (b_f b0)); inversion H; subst; auto.
    + inversion H; subst; auto.
Qed.

Lemma fold_best_some (cands : list Best) (b0 : Best) :
  exists b, fold_left update_best cands (Some b0) = Some b.
Proof.
  revert b0. induction cands as [|c cands IH]; intros b0; simpl.
  - eauto.
  - destruct (PyFloat.lt (b_f c) (b_f b0)); apply IH.
Qed.

(** No candidate met scores below the best kept. *)
Lemma fold_best_from (cands : list Best) (b0 b : Best) :
  fold_left update_best cands (Some b0) = Some b ->
  (b = b0 \/ PyFloat.lt (b_f b) (b_f b0) = true)
  /\ (forall c, In c cands -> PyFloat.lt (b_f c) (b_f b) = false).
Proof.
  revert b0. induction cands as [|c cands IH]; intros b0 H; simpl in *.
  - inversion H; subst. split; [auto|tauto].
  - destruct (PyFloat.lt (b_f c) (b_f b0)) eqn:E.
    + apply IH in H as [Hb Hc]. split.
      * right. destruct Hb as [->|Hb]; [exact E|]. eapply lt_trans; eauto.
      * intros c0 [<-|H0]; [|auto].
        destruct Hb as [->|Hb]; [apply lt_irrefl|].
        destruct (PyFloat.lt (b_f c) (b_f b)) eqn:E2; [|reflexivity].
        pose proof (lt_trans _ _ _ Hb E2) as Hbb.
        now rewrite lt_irrefl in Hbb.
    + apply IH in H as [Hb Hc]. split; [exact Hb|].
      intros c0 [<-|H0]; [|auto].
      destruct Hb as [->|Hb]; [exact E|].
      destruct (PyFloat.lt (b_f c) (b_f b)) eqn:E2; [|reflexivity].
      pose proof (lt_trans _ _ _ E2 Hb) as Hcb. congruence.
Qed.

Lemma select_least (cands : list Best) (b : Best) :
  select cands = Some b ->
  In b cands /\ forall c, In c cands -> PyFloat.lt (b_f c) (b_f b) = false.
Proof.
  unfold select. intros H. split.
  - apply fold_best_in in H as [H|H]; [discriminate|exact H].
  - destruct cands as [|c0 cands]; simpl in *; [discriminate|].
    apply fold_best_from in H as [Hb Hc].
    intros c [<-|Hin]; [|auto].
    destruct Hb as [->|Hb]; [apply lt_irrefl|].
    destruct (PyFloat.lt (b_f c0) (b_f b)) eqn:E2; [|reflexivity].
    pose proof (lt_trans _ _ _ Hb E2) as Hbb.
        now rewrite lt_irrefl in Hbb.
Qed.

Lemma select_none (cands : list Best) : select cands = None <-> cands = [].
Proof.
  unfold select. destruct cands as [|c cands]; simpl; [tauto|].
  destruct (fold_best_some cands c) as [b ->]. split; discriminate.
Qed.

(** A turn of planner_viz.py that expands a node pushes [expansion]. *)
Lemma Planner_turn_expand (oracle : Oracle) (random : nat -> float)
  (q : string) (c : Config) (node : Node) (open' : list Node) :
  heappop (open_set c) = Some (node, open') ->
  state_hashable (state node) = true ->
  existsb (state_eq (state node)) (closed c) = false ->
  is_goal (state node) = false ->
  Planner.astar_turn oracle random q c
  = Running (mkConfig
               (open' ++ fst (expansion oracle random q node (world c)))
               (state node :: closed c)
               (snd (expansion oracle random q node (world c)))).
Proof.
  intros Hpop Hh Hc Hg. unfold Planner.astar_turn, expansion.
  rewrite Hpop, Hh, Hc, Hg. simpl.
  destruct (Planner.propose_tools oracle (state node) q 3 (world c))
    as [ranked w1].
  destruct ranked as [|rt ranked].
  - simpl. unfold select. simpl. now rewrite app_nil_r.
  - rewrite eval_tools_fold.
    destruct (all_successors oracle random node q (rt :: ranked) w1)
      as [succs w2].
    simpl. fold (select succs).
    destruct (select succs); simpl; [reflexivity|now rewrite app_nil_r].
Qed.

(** The shape of every turn of planner_viz.py. *)
Lemma Planner_turn_cases (oracle : Oracle) (random : nat -> float)
  (q : string) (c : Config) :
  (open_set c = []
   /\ Planner.astar_turn oracle random q c
      = Finished (Raise (RuntimeError "No plan found")))
  \/ exists node open', heappop (open_set c) = Some (node, open')
      /\ ((state_hashable (state node) = false
           /\ Planner.astar_turn oracle random q c = Finished (Raise TypeError))
          \/ (state_hashable (state node) = true
              /\ existsb (state_eq (state node)) (closed c) = true
              /\ Planner.astar_turn oracle random q c
                 = Running (mkConfig open' (closed c) (world c)))
          \/ (state_hashable (state node) = true
              /\ existsb (state_eq (state node)) (closed c) = false
              /\ is_goal (state node) = true
              /\ Planner.astar_turn oracle random q c
                 = Finished (Ret (plan node)))
          \/ (state_hashable (state node) = true
              /\ existsb (state_eq (state node)) (closed c) = false
              /\ is_goal (state node) = false
              /\ Planner.astar_turn oracle random q c
                 = Running
                     (mkConfig
                        (open'
                         ++ fst (expansion oracle random q node (world c)))
                        (state node :: closed c)
                        (snd (expansion oracle random q node (world c)))))).
Proof.
  destruct (heappop (open_set c)) as [[node open']|] eqn:Hpop.
  - right. exists node, open'. split; [reflexivity|].
    destruct (state_hashable (state node)) eqn:Hh.
    + destruct (existsb (state_eq (state node)) (closed c)) eqn:Hc.
      * right; left. repeat split; auto.
        unfold Planner.astar_turn. now rewrite Hpop, Hh, Hc.
      * destruct (is_goal (state node)) eqn:Hg.
        -- right; right; left. repeat split; auto.
           unfold Planner.astar_turn. now rewrite Hpop, Hh, Hc, Hg.
        -- right; right; right. repeat split; auto.
           now apply Planner_turn_expand.
    + left. split; [reflexivity|].
      unfold Planner.astar_turn. now rewrite Hpop, Hh.
  - left. destruct (open_set c) eqn:Ho; [|discriminate]. split; [reflexivity|].
    unfold Planner.astar_turn. now rewrite Ho.
Qed.

(** The node an expansion pushes is one step from the expanded node, by a
    tool of the ranking. *)
Lemma expansion_step (oracle : Oracle) (random : nat -> float)
  (q : string) (node : Node) (w : World) (n : Node) :
  In n (fst (expansion oracle random q node w)) ->
  exists b, n = node_of b /\ step_of node b
    /\ exists prior,
        In (b_tool b, prior)
           (fst (Planner.propose_tools oracle (state node) q 3 w)).
Proof.
  unfold expansion.
  destruct (Planner.propose_tools oracle (state node) q 3 w) as [ranked w1].
  destruct (all_successors oracle random node q ranked w1) as [succs w2] eqn:E.
  simpl. destruct (select succs) as [b|] eqn:Hs; simpl; [|tauto].
  intros [<-|[]]. exists b. split; [reflexivity|].
  apply select_least in Hs as [Hin _].
  apply (all_successors_step oracle random node q ranked w1).
  now rewrite E.
Qed.

Lemma expansion_at_most_one (oracle : Oracle) (random : nat -> float)
  (q : string) (node : Node) (w : World) :
  List.length (fst (expansion oracle random q node w)) <= 1.
Proof.
  unfold expansion.
  destruct (Planner.propose_tools oracle (state node) q 3 w) as [ranked w1].
  destruct (all_successors oracle random node q ranked w1) as [succs w2].
  simpl. destruct (select succs); simpl; lia.
Qed.

(** ** Ranked tools come from the registry *)

Lemma applicable_TOOLS (s : State) (t : Tool) :
  In t (applicable s) -> In t TOOLS /\ precondition t s = true.
Proof. unfold applicable. now rewrite filter_In. Qed.

Lemma rank_items_in (candidates : list Tool) (items : list (PyVal * float))
  (ranked : list (Tool * float)) (t : Tool) (p : float) :
  rank_items candidates items = Some ranked ->
  In (t, p) ranked -> In t candidates.
Proof.
  revert ranked. induction items as [|[nm p0] rest IH]; intros ranked; simpl.
  - intros H; inversion H; subst. intros [].
  - destruct (hashable nm); simpl; [|discriminate].
    destruct (rank_items candidates rest) as [r|]; [|discriminate].
    destruct nm as [| | |n|]; intros H; inversion H; subst; eauto.
    unfold name2tool in H.
    destruct (find (fun t0 => name t0 =? n) (rev candidates)) as [t0|] eqn:F;
      inversion H; subst; eauto.
    intros [Heq|Hin]; eauto. inversion Heq; subst.
    apply find_some in F as [F _]. now apply in_rev.
Qed.

Lemma ranked_of_reply_in (candidates : list Tool) (raw : RankReply)
  (t : Tool) (p : float) :
  In (t, p) (ranked_of_reply candidates raw) -> In t candidates.
Proof.
  unfold ranked_of_reply. destruct raw as [| |items]; try (intros []).
  destruct (rank_items candidates items) as [r|] eqn:E; [|intros []].
  eapply rank_items_in; eauto.
Qed.

Lemma insert_desc_in (x y : Tool * float) (l : list (Tool * float)) :
  In y (Planner.insert_desc x l) -> y = x \/ In y l.
Proof.
  induction l as [|z l IH]; simpl.
  - intros [<-|[]]; auto.
  - destruct (PyFloat.lt (snd z) (snd x)); simpl.
    + intros [<-|H]; auto.
    + intros [<-|H]; auto. apply IH in H. tauto.
Qed.

Lemma sorted_desc_in (l : list (Tool * float)) (y : Tool * float) :
  In y (Planner.sorted_desc l) -> In y l.
Proof.
  unfold Planner.sorted_desc.
  assert (G : forall acc, In y (fold_left (fun a x => Planner.insert_desc x a)
                                  l acc) -> In y acc \/ In y l).
  { induction l as [|x l IH]; intros acc; simpl; [auto|].
    intros H. apply IH in H as [H|H]; [|auto].
    apply insert_desc_in in H as [->|H]; auto. }
  intros H. apply G in H as [[]|H]. exact H.
Qed.

Lemma firstn_in {A : Type} (k : nat) (l : list A) (x : A) :
  In x (firstn k l) -> In x l.
Proof.
  revert l. induction k as [|k IH]; intros [|y l]; simpl; try tauto.
  intros [<-|H]; auto.
Qed.

Lemma Planner_propose_tools_in (oracle : Oracle) (s : State) (q : string)
  (k : nat) (w : World) (t : Tool) (p : float) :
  In (t, p) (fst (Planner.propose_tools oracle s q k w)) -> In t (applicable s).
Proof.
  unfold Planner.propose_tools.
  destruct (applicable s) as [|t0 cands] eqn:Ha; simpl; [tauto|].
  unfold bind. simpl. intros H. apply firstn_in in H.
  destruct (ranked_of_reply (t0 :: cands) _) as [|r ranked] eqn:E.
  - apply sorted_desc_in in H.
    change (In (t, p) (map (fun t1 => (t1, Planner.heuristic_rank s t1))
                         (t0 :: cands))) in H.
    apply in_map_iff in H as (t1 & Heq & Hin).
    now inversion Heq; subst.
  - rewrite <- E in H. now apply ranked_of_reply_in in H.
Qed.

Lemma planner_propose_tools_in (oracle : Oracle) (s : State) (q : string)
  (k : nat) (w : World) (t : Tool) (p : float) :
  In (t, p) (fst (planner.propose_tools oracle s q k w)) -> In t (applicable s).
Proof.
  unfold planner.propose_tools.
  destruct (applicable s) as [|t0 cands] eqn:Ha; simpl; [tauto|].
  intros H. apply firstn_in in H. now apply ranked_of_reply_in in H.
Qed.

(** ** The turns of both planners have the common shape *)

Lemma Planner_turn_shape (oracle : Oracle) (random : nat -> float)
  (q : string) :
  turn_shape (fun _ => False) (Planner.astar_turn oracle random q).
Proof.
  intros c.
  destruct (Planner_turn_cases oracle random q c)
    as [H|(node & open' & Hpop & [H|[H|[H|(Hh & Hc & Hg & Ht)]]])];
    [left; exact H|right; exists node, open'; split; [exact Hpop|]..].
  - left; exact H.
  - right; left; exact H.
  - right; right; left; exact H.
  - right; right; right. repeat (split; [assumption|]). right.
    exists (fst (expansion oracle random q node (world c))),
           (snd (expansion oracle random q node (world c))).
    split; [exact Ht|].
    pose proof (expansion_at_most_one oracle random q node (world c)) as Hlen.
    pose proof (expansion_step oracle random q node (world c)) as Hstep.
    destruct (fst (expansion oracle random q node (world c))) as [|n [|n' l]];
      [left; reflexivity| |simpl in Hlen; lia].
    right. destruct (Hstep n (or_introl eq_refl)) as (b & -> & Hs & prior & Hin).
    exists b. repeat split; try apply Hs.
    apply Planner_propose_tools_in in Hin. now apply applicable_TOOLS in Hin.
Qed.

Lemma planner_eval_args_inv (oracle : Oracle) (random : nat -> float)
  (node : Node) (tool : Tool) (prior : float) (cands : list (list PyVal))
  (best : option Best) (w : World) :
  (forall b0, best = Some b0 -> step_of node b0 /\ b_tool b0 = tool) ->
  match fst (planner.eval_args oracle random node tool prior cands best w) with
  | Ret (Some b) => step_of node b /\ b_tool b = tool
  | Ret None => True
  | Raise e => e = ZeroDivisionError
  end.
Proof.
  revert best w. induction cands as [|args rest IH]; intros best w Hbest; simpl.
  - destruct best as [b|]; auto.
  - destruct (Tool_call tool (state node) args) as [[r|e] sim] eqn:Hc;
      [|now apply IH].
    unfold bind.
    destruct (predict_success oracle random (state node) tool args w)
      as [prob w1].
    unfold PyFloat.div.
    destruct (PrimFloat.eqb (prob * prior) 0); simpl; [reflexivity|].
    apply IH. intros b0 Hb0.
    eapply (update_best_keeps (fun b => step_of node b /\ b_tool b = tool));
      [exact Hbest| |exact Hb0].
    apply Tool_call_ret in Hc as Hc'. destruct Hc' as (_ & _ & ->).
    unfold step_of; simpl. auto.
Qed.


(** ** Progress of the registry's tools *)

Lemma py_eq_refl (v : PyVal) : hashable v = true -> py_eq v v = true.
Proof.
  destruct v as [|b|n|s|l]; simpl; intros H; try discriminate.
  - reflexivity.
  - now destruct b.
  - apply Z.eqb_refl.
  - apply String.eqb_refl.
Qed.

Lemma state_eq_refl (s : State) : state_hashable s = true -> state_eq s s = true.
Proof.
  unfold state_hashable, state_eq. rewrite !andb_true_iff.
  intros [[Ho Hd] Ht]. rewrite !py_eq_refl by assumption.
  now destruct (booking_confirmed s).
Qed.

(** A successful call of a registry tool leaves the state as it is (a field
    that was [None] is set to [None]) or fills one more field. *)
Lemma TOOLS_progress (t : Tool) (s s' : State) (args : list PyVal) :
  In t TOOLS -> Tool_call t s args = (Ret true, s') ->
  s' = s \/ todo s' + 1 = todo s.
Proof.
  intros Hin Hc. apply Tool_call_ret in Hc as (Hpre & Heff & _).
  destruct s as [o d tr b]. unfold todo. simpl in Hin.
  destruct Hin as [<-|[<-|[<-|[<-|[]]]]]; simpl in *.
  - destruct args as [|a args]; simpl in Heff; inversion Heff; subst; simpl.
    destruct o; try discriminate. destruct a; simpl; auto; right; lia.
  - destruct args as [|a args]; simpl in Heff; inversion Heff; subst; simpl.
    apply andb_true_iff in Hpre as [_ Hd].
    destruct d; try discriminate. destruct a; simpl; auto; right; lia.
  - destruct args as [|a args]; simpl in Heff; inversion Heff; subst; simpl.
    apply andb_true_iff in Hpre as [_ Ht].
    destruct tr; try discriminate. destruct a; simpl; auto; right; lia.
  - inversion Heff; subst; simpl.
    apply andb_true_iff in Hpre as [_ Hb]. destruct b; try discriminate.
    simpl. right. lia.
Qed.


Lemma todo_le_4 (s : State) : todo s <= 4.
Proof.
  unfold todo. destruct (is_none (origin s)), (is_none (destination s)),
    (is_none (transport s)), (booking_confirmed s); simpl; lia.
Qed.

(** ** The loop over a turn of the common shape *)

Section Loop.
Variable E : PyExn -> Prop.
Variable turn : Config -> Turn.
Hypothesis shape : turn_shape E turn.
Variable init : State.






Lemma frontier_step (k : nat) (c c' : Config) :
  frontier k c -> turn c = Running c' -> frontier (S k) c'.
Proof.
  intros Hf Ht.
  destruct (shape c) as [[_ H]|(node & open' & Hpop & H)]; [congruence|].
  destruct Hf as [Ho|(n & Ho & Hn)]; rewrite Ho in Hpop;
    simpl in Hpop; [discriminate|]. inversion Hpop; subst n open'.
  destruct H as [[_ H]|[(_ & _ & H)|[(_ & _ & _ & H)|(Hh & Hc & _ & H)]]];
    try congruence.
  - rewrite Ht in H. inversion H; subst. now left.
  - destruct H as [(e & _ & H)|(pushed & w' & H & Hp)]; [congruence|].
    rewrite Ht in H. inversion H; subst. simpl.
    destruct Hp as [->|(b & -> & (Hcall & _) & Hin)]; [now left|].
    right. exists (node_of b). split; [reflexivity|]. simpl.
    destruct Hn as [Hn|Hn]; [congruence|].
    destruct (TOOLS_progress _ _ _ _ Hin Hcall) as [->|Hp].
    + left. now rewrite state_eq_refl.
    + right. lia.
Qed.




(** OPEN never holds more than one node. *)
Lemma open_at_most_one (k : nat) (w : World) (c : Config) :
  turns turn k (Planner.start w init) = Some c ->
  List.length (open_set c) <= 1.
Proof.
  assert (G : forall k j c0 c1, frontier j c0 -> turns turn k c0 = Some c1 ->
                                frontier (k + j) c1).
  { clear k c. induction k as [|k IH]; intros j c0 c1 Hf; simpl.
    - intros H; inversion H; subst; exact Hf.
    - destruct (turn c0) as [c2|r] eqn:Ht; [|discriminate].
      intros H. replace (S (k + j)) with (k + S j) by lia.
      eapply IH; [|exact H]. eapply frontier_step; eauto. }
  intros H. apply (G k 0) in H.
  - destruct H as [->|(n & -> & _)]; simpl; lia.
  - right. exists (Planner.root init). split; [reflexivity|].
    right. pose proof (todo_le_4 init). simpl. lia.
Qed.
End Loop.

(** ** The two searches are loops over their turns *)




(** The plan that the fallbacks reach when all random draws are equal. *)
Lemma Planner_fallback_run :
  Planner.astar failing_oracle half 5 w0 State0 question
  = Some (Ret [(set_origin, [PyStr "Book"]);
               (set_destination, [PyStr "New York"]);
               (select_transport, [PyStr "train"]);
               (confirm_booking, [])]).
Proof. vm_compute. reflexivity. Qed.

(** ** The heuristic *)

(** C7. The heuristic is 0 on a goal state; on any other state it is 0 when
    no tool is applicable, and otherwise the least cost among the tools whose
    precondition holds: one of their costs, and below or equal to each. *)
Theorem heuristic_is_least_applicable_cost (s : State) :
  (is_goal s = true -> heuristic s = 0%float)
  /\ (is_goal s = false -> applicable s = [] -> heuristic s = 0%float)
  /\ (is_goal s = false -> applicable s <> [] ->
      In (heuristic s) (map cost (applicable s))
      /\ forall c, In c (map cost (applicable s)) ->
                   PrimFloat.leb (heuristic s) c = true).
Proof.
  destruct s as [o d t b].
  unfold is_goal, heuristic, applicable, TOOLS. simpl.
  destruct b; simpl.
  - split; [reflexivity|]. split; discriminate.
  - split; [discriminate|].
    destruct (is_none o), (is_none d), (is_none t); simpl;
      (split;
       [ intros _ H; try discriminate H; reflexivity
       | intros _ _; split;
         [ vm_compute; tauto
         | intros c Hc; simpl in Hc;
           repeat (destruct Hc as [<- | Hc]; [vm_compute; reflexivity|]);
           destruct Hc ] ]).
Qed.

Lemma heuristic_is_least_applicable_cost_witness :
  In (heuristic two_tool_state) (map cost (applicable two_tool_state))
  /\ forall c, In c (map cost (applicable two_tool_state)) ->
               PrimFloat.leb (heuristic two_tool_state) c = true.
Proof.
  apply (heuristic_is_least_applicable_cost two_tool_state).
  - reflexivity.
  - discriminate.
Defined.

(** ** Calling a tool *)

(** C10 fails where the effect itself raises: [set_origin] called on the
    empty state with no argument has a true precondition, yet the call
    raises [IndexError] instead of returning [True]. *)
Lemma Tool_call_effect_raises :
  precondition set_origin State0 = true
  /\ Tool_call set_origin State0 [] = (Raise IndexError, State0).
Proof. split; reflexivity. Qed.

(** C10, amended. The precondition is tested first.  When it is false the
    call raises [ValueError] and the state is untouched.  When it is true
    the effect runs: if the effect completes, the call returns [True] in
    the state the effect left; if the effect raises, the call raises the
    same exception.  For the tools of the registry the effect raises only
    when an argument is missing, and then the state is untouched. *)
Theorem Tool_call_checks_precondition_first (t : Tool) (s : State)
  (args : list PyVal) :
  (precondition t s = false ->
   Tool_call t s args
   = (Raise (ValueError ("Precondition failed for " ++ name t)), s))
  /\ (precondition t s = true ->
      forall s', effect t s args = (Ret tt, s') ->
                 Tool_call t s args = (Ret true, s'))
  /\ (precondition t s = true ->
      forall e s', effect t s args = (Raise e, s') ->
                   Tool_call t s args = (Raise e, s'))
  /\ (In t TOOLS -> precondition t s = true ->
      (List.length (arg_names t) <= List.length args ->
       exists s', effect t s args = (Ret tt, s')
                  /\ Tool_call t s args = (Ret true, s'))
      /\ (List.length args < List.length (arg_names t) ->
          Tool_call t s args = (Raise IndexError, s))).
Proof.
  unfold Tool_call. repeat split.
  - intros ->. reflexivity.
  - intros -> s' ->. reflexivity.
  - intros -> e s' ->. reflexivity.
  - rewrite H0. simpl in H.
    destruct H as [<-|[<-|[<-|[<-|[]]]]]; simpl in *;
      try (destruct args as [|a args]; simpl in *; [lia|]); eauto.
  - rewrite H0. simpl in H.
    destruct H as [<-|[<-|[<-|[<-|[]]]]]; simpl in *;
      try (destruct args as [|a args]; simpl in *; [reflexivity|lia]); lia.
Qed.

Lemma Tool_call_checks_precondition_first_witness :
  Tool_call set_origin State0 [PyStr "New York"]
  = (Ret true, mkState (PyStr "New York") PyNone PyNone false).
Proof.
  apply (Tool_call_checks_precondition_first set_origin State0
           [PyStr "New York"]); reflexivity.
Defined.

(** ** One node per expansion *)

Lemma expansion_cases (oracle : Oracle) (random : nat -> float) (q : string)
  (node : Node) (w : World) :
  (fst (all_successors oracle random node q
          (fst (Planner.propose_tools oracle (state node) q 3 w))
          (snd (Planner.propose_tools oracle (state node) q 3 w))) = []
   /\ fst (expansion oracle random q node w) = [])
  \/ exists b,
      select (fst (all_successors oracle random node q
                     (fst (Planner.propose_tools oracle (state node) q 3 w))
                     (snd (Planner.propose_tools oracle (state node) q 3 w))))
      = Some b
      /\ fst (expansion oracle random q node w) = [node_of b].
Proof.
  unfold expansion.
  destruct (Planner.propose_tools oracle (state node) q 3 w) as [ranked w1].
  simpl. destruct (all_successors oracle random node q ranked w1) as [succs w2].
  simpl. destruct (select succs) as [b|] eqn:Hs.
  - right. exists b. split; reflexivity.
  - left. split; [|reflexivity]. now apply select_none.
Qed.

Lemma firstn_length_le {A : Type} (k : nat) (l : list A) :
  List.length (firstn k l) <= k.
Proof.
  revert l. induction k as [|k IH]; intros [|x l]; simpl; try lia.
  specialize (IH l). lia.
Qed.

Lemma Planner_propose_tools_length (oracle : Oracle) (s : State) (q : string)
  (k : nat) (w : World) :
  List.length (fst (Planner.propose_tools oracle s q k w)) <= k.
Proof.
  unfold Planner.propose_tools.
  destruct (applicable s) as [|t0 cands]; simpl; [lia|].
  unfold bind. simpl. apply firstn_length_le.
Qed.

(** A turn of planner.py that expands a node: every pushed node is a
    successor by the first tool of the ranking. *)
Lemma planner_turn_expand (oracle : Oracle) (random : nat -> float)
  (q : string) (c : Config) (node : Node) (open' : list Node) :
  heappop (open_set c) = Some (node, open') ->
  state_hashable (state node) = true ->
  existsb (state_eq (state node)) (closed c) = false ->
  is_goal (state node) = false ->
  match fst (planner.propose_tools oracle (state node) q 3 (world c)) with
  | [] => planner.astar_turn oracle random q c = Finished (Raise IndexError)
  | (tool, _) :: _ =>
      planner.astar_turn oracle random q c
      = Finished (Raise ZeroDivisionError)
      \/ exists pushed w',
          planner.astar_turn oracle random q c
          = Running (mkConfig (open' ++ pushed) (state node :: closed c) w')
          /\ (pushed = []
              \/ exists b, pushed = [node_of b] /\ step_of node b
                   /\ b_tool b = tool)
  end.
Proof.
  intros Hpop Hh Hc Hg. unfold planner.astar_turn.
  rewrite Hpop, Hh, Hc, Hg. cbn [negb].
  destruct (planner.propose_tools oracle (state node) q 3 (world c))
    as [[|[tool prior] ranked] w1]; cbn [fst]; [reflexivity|].
  destruct (precondition tool (state node)); cbn [negb].
  2:{ right. exists [], w1. rewrite app_nil_r. auto. }
  destruct (propose_args oracle tool (state node) q w1) as [args w2].
  pose proof (planner_eval_args_inv oracle random node tool prior args
                None w2) as Hinv.
  destruct (planner.eval_args oracle random node tool prior args None w2)
    as [[[b|]|e] w3]; simpl in Hinv.
  - right. exists [node_of b], w3. split; [reflexivity|]. right.
    destruct Hinv as [Hs Ht]; [discriminate|]. exists b. auto.
  - right. exists [], w3. rewrite app_nil_r. auto.
  - left. rewrite Hinv by discriminate. reflexivity.
Qed.

(** C5 fails in both planners.  In planner_viz.py an expansion whose
    candidates all fail in simulation pushes no node: under
    [empty_tuple_oracle] the one candidate of [set_origin] is the empty
    tuple, the effect raises, and OPEN is left empty.  In planner.py only
    the first ranked tool is evaluated: under [two_tool_oracle] it pushes
    the successor by [select_transport], while planner_viz.py, which also
    evaluates [set_origin], pushes that better-scoring successor. *)
Lemma expansion_may_push_nothing_or_skip_tools :
  plans_on_open
    (Planner.astar_turn empty_tuple_oracle half question
       (Planner.start w0 State0)) = Some []
  /\ plans_on_open
       (planner.astar_turn two_tool_oracle half question
          (Planner.start w0 two_tool_state))
     = Some [[(select_transport, [PyStr "train"])]]
  /\ plans_on_open
       (Planner.astar_turn two_tool_oracle half question
          (Planner.start w0 two_tool_state))
     = Some [[(set_origin, [PyStr "New York"])]].
Proof. repeat split; vm_compute; reflexivity. Qed.

(** C5, amended.  A turn of planner_viz.py that expands a node ranks at
    most three tools, evaluates the successors of all of them (every ranked
    tool whose precondition holds, with every argument tuple proposed for
    it: [all_successors]), and pushes the node of the one best among all of
    these, which is a successor that no other successor beats on [f]; it
    pushes nothing when no successor survived.  So it pushes at most one
    node.  A turn of planner.py on the same configuration also pushes at
    most one node, and that node is a successor by the first ranked tool. *)
Theorem expansion_pushes_the_one_global_best (oracle : Oracle)
  (random : nat -> float) (q : string) (c : Config) (node : Node)
  (open' : list Node) :
  heappop (open_set c) = Some (node, open') ->
  state_hashable (state node) = true ->
  existsb (state_eq (state node)) (closed c) = false ->
  is_goal (state node) = false ->
  let ranked := Planner.propose_tools oracle (state node) q 3 (world c) in
  let succs :=
    fst (all_successors oracle random node q (fst ranked) (snd ranked)) in
  List.length (fst ranked) <= 3
  /\ exists pushed w',
      Planner.astar_turn oracle random q c
      = Running (mkConfig (open' ++ pushed) (state node :: closed c) w')
      /\ List.length pushed <= 1
      /\ (succs = [] -> pushed = [])
      /\ (succs <> [] ->
          exists b, pushed = [node_of b] /\ select succs = Some b
            /\ In b succs
            /\ forall c0, In c0 succs -> PyFloat.lt (b_f c0) (b_f b) = false)
      /\ forall c', planner.astar_turn oracle random q c = Running c' ->
          exists pushed', open_set c' = open' ++ pushed'
            /\ (pushed' = []
                \/ exists b tool prior rest,
                     fst (planner.propose_tools oracle (state node) q 3
                            (world c)) = (tool, prior) :: rest
                     /\ pushed' = [node_of b] /\ step_of node b
                     /\ b_tool b = tool).
Proof.
  intros Hpop Hh Hc Hg ranked succs.
  split; [apply Planner_propose_tools_length|].
  assert (Hpy : forall c', planner.astar_turn oracle random q c = Running c' ->
          exists pushed', open_set c' = open' ++ pushed'
            /\ (pushed' = []
                \/ exists b tool prior rest,
                     fst (planner.propose_tools oracle (state node) q 3
                            (world c)) = (tool, prior) :: rest
                     /\ pushed' = [node_of b] /\ step_of node b
                     /\ b_tool b = tool)).
  { intros c' Hrun.
    pose proof (planner_turn_expand oracle random q c node open'
                  Hpop Hh Hc Hg) as Hpl.
    destruct (fst (planner.propose_tools oracle (state node) q 3 (world c)))
      as [|[tool prior] rest]; [congruence|].
    destruct Hpl as [Hpl|(pushed' & w' & Hpl & Hcase)]; [congruence|].
    rewrite Hrun in Hpl. inversion Hpl; subst. exists pushed'.
    split; [reflexivity|].
    destruct Hcase as [->|(b & -> & Hs & Ht)]; [now left|].
    right. exists b, tool, prior, rest. auto. }
  exists (fst (expansion oracle random q node (world c))),
         (snd (expansion oracle random q node (world c))).
  split; [now apply Planner_turn_expand|].
  split; [apply expansion_at_most_one|].
  destruct (expansion_cases oracle random q node (world c))
    as [[Hs He]|(b & Hs & He)]; fold ranked in Hs; fold succs in Hs.
  - split; [intros _; exact He|]. split; [|exact Hpy].
    intros Hne. contradiction.
  - split; [|split; [|exact Hpy]].
    + intros Hnil. rewrite Hnil in Hs. discriminate.
    + intros _. exists b. split; [exact He|]. split; [exact Hs|].
      now apply select_least.
Qed.

Lemma expansion_pushes_the_one_global_best_witness :
  exists pushed w',
    Planner.astar_turn failing_oracle half question (Planner.start w0 State0)
    = Running (mkConfig ([] ++ pushed) [State0] w')
    /\ List.length pushed <= 1.
Proof.
  destruct (expansion_pushes_the_one_global_best failing_oracle half question
              (Planner.start w0 State0) (Planner.root State0) []
              eq_refl eq_refl eq_refl eq_refl)
    as (_ & pushed & w' & Ht & Hlen & _).
  exists pushed, w'. split; [exact Ht|exact Hlen].
Defined.

(** ** On parsed replies the search ends by itself *)



(** ** The search when every oracle call fails *)

(** One expanding turn of planner_viz.py on a single-node OPEN: the pushed
    node comes from one of the evaluated successors, each of which is then
    followed separately. *)
Ltac one_turn :=
  match goal with
  | |- context [Planner.astar_turn ?o ?r ?q (mkConfig [?n] ?cl ?w)] =>
      rewrite (Planner_turn_expand o r q (mkConfig [n] cl w) n [])
        by reflexivity;
      cbv beta iota;
      change (world (mkConfig [n] cl w)) with w;
      let Hs := fresh "Hs" in
      let He := fresh "He" in
      let b := fresh "b" in
      let Hin := fresh "Hin" in
      destruct (expansion_cases o r q n w) as [[Hs He]|(b & Hin & He)];
      [ vm_compute in Hs; discriminate Hs
      | apply select_least in Hin; destruct Hin as [Hin _];
        rewrite He; clear He;
        generalize (snd (expansion o r q n w)); intro;
        vm_compute in Hin;
        repeat (destruct Hin as [Hin|Hin]; [subst b|]); [..|destruct Hin];
        cbn [app node_of b_f b_g b_state b_plan closed] ]
  end.

(** C4: with every oracle call failing and equal random draws, the plan
    that planner_viz.py returns for "Book a train from New York to Boston"
    sets the origin to "Book" and the destination to "New York": [CITY_RE]
    takes the capitalised first word of the sentence for a city.  On the
    same input planner.py returns no plan: its first turn raises
    [IndexError]. *)
Theorem fallback_plan_starts_from_Book :
  Planner.astar failing_oracle half 5 w0 State0 question
  = Some (Ret [(set_origin, [PyStr "Book"]);
               (set_destination, [PyStr "New York"]);
               (select_transport, [PyStr "train"]);
               (confirm_booking, [])])
  /\ PyStr "Book" <> PyStr "New York"
  /\ PyStr "New York" <> PyStr "Boston"
  /\ dedup [] (CityRe.findall question) = ["Book"; "New York"; "Boston"]
  /\ planner.astar failing_oracle half 5 w0 State0 question
     = Some (Raise IndexError).
Proof.
  split; [exact Planner_fallback_run|].
  repeat split; try discriminate; vm_compute; reflexivity.
Qed.

(** With every oracle call failing, no reply is evaluated, and
    planner_viz.py returns, in its fifth turn and whatever the random
    draws are, a plan of four steps from the empty state: [set_origin],
    [set_destination], [select_transport], [confirm_booking].  The origin
    is one of the first three capitalised phrases of the goal text, the
    destination one of the phrases after the first, the transport one of
    the three modes; and the plan replays into the confirmed state with
    these fields. *)
Theorem fallback_search_returns_valid_plan (random : nat -> float)
  (w : World) (extra : nat) :
  exists c1 c2 m,
    Planner.astar failing_oracle random (5 + extra) w State0 question
    = Some (Ret [(set_origin, [PyStr c1]); (set_destination, [PyStr c2]);
                 (select_transport, [PyStr m]); (confirm_booking, [])])
    /\ In c1 (firstn 3 (dedup [] (CityRe.findall question)))
    /\ In c2 (firstn 3 (skipn 1 (dedup [] (CityRe.findall question))))
    /\ In m TRANSPORT_MODES
    /\ replay [(set_origin, [PyStr c1]); (set_destination, [PyStr c2]);
               (select_transport, [PyStr m]); (confirm_booking, [])] State0
       = (Ret tt, mkState (PyStr c1) (PyStr c2) (PyStr m) true).
Proof.
  unfold Planner.astar, Planner.start, Planner.root.
  cbn [Planner.astar_loop heappush app Nat.add].
  one_turn; one_turn; one_turn; one_turn;
    (do 3 eexists; split; [vm_compute; reflexivity|];
     repeat split; try (vm_compute; tauto)).
Qed.

(** ** Failures of planner.py and of [predict_success] *)

(** C2: planner.py divides by the bare product.  When the probability read
    from the reply is 0, the first expansion raises [ZeroDivisionError]. *)
Theorem planner_divides_by_zero_probability :
  planner.astar (fixed_prob_oracle 0) half 1 w0 State0 question
  = Some (Raise ZeroDivisionError).
Proof. vm_compute. reflexivity. Qed.

(** The same oracle in planner_viz.py: the divisor is floored to the
    epsilon, the search goes on and returns a plan. *)
Lemma Planner_floors_zero_probability :
  exists p, Planner.astar (fixed_prob_oracle 0) half 5 w0 State0 question
            = Some (Ret p).
Proof. eexists. vm_compute. reflexivity. Qed.

(** C3: planner.py indexes the ranking without testing it.  When the
    ranking call fails the ranking is empty and the first turn raises
    [IndexError], whatever the random draws. *)
Theorem planner_raises_on_empty_ranking (random : nat -> float)
  (w : World) (extra : nat) :
  planner.astar failing_oracle random (1 + extra) w State0 question
  = Some (Raise IndexError).
Proof. reflexivity. Qed.

(** C6: [predict_success] returns the float of the reply as it is, also
    outside of the unit interval. *)
Theorem predict_success_is_not_clamped :
  fst (predict_success (fixed_prob_oracle 7.5) half State0 set_origin
         [PyStr "New York"] w0) = 7.5%float
  /\ PrimFloat.leb 7.5 1 = false
  /\ fst (predict_success (fixed_prob_oracle (-1)) half State0 set_origin
            [PyStr "New York"] w0) = (-1)%float
  /\ PrimFloat.leb 0 (-1) = false.
Proof. repeat split. Qed.

(** The heuristic takes four values only. *)
Lemma heuristic_values (s : State) :
  In (heuristic s) [0; 1; 1.2; 2]%float.
Proof.
  destruct s as [o d t b]. unfold heuristic, applicable, TOOLS. simpl.
  destruct b; simpl; [auto|].
  destruct (is_none o), (is_none d), (is_none t); vm_compute; tauto.
Qed.

(** The [f] of a successor whose plan has at most four steps of registry
    tools is finite when the heuristic is divided by the epsilon. *)
Lemma floored_f_is_finite (sim : State) (new_plan : Plan) :
  Forall (fun step => In (fst step) TOOLS) new_plan ->
  List.length new_plan <= 4 ->
  PyFloat.is_finite (plan_cost new_plan + heuristic sim / 1e-9) = true.
Proof.
  intros Hp Hlen.
  pose proof (heuristic_values sim) as Hh.
  generalize dependent (heuristic sim). intros h Hh. simpl in Hh.
  destruct new_plan as [|[t1 a1] [|[t2 a2] [|[t3 a3] [|[t4 a4] [|? ?]]]]];
    simpl in Hlen; try lia;
    repeat match goal with
    | H0 : Forall _ (_ :: _) |- _ => inversion H0; subst; clear H0
    | H0 : Forall _ [] |- _ => clear H0
    end; simpl in *;
    repeat match goal with
    | H0 : _ \/ _ |- _ => destruct H0 as [H0|H0]
    | H0 : False |- _ => destruct H0
    end; subst; vm_compute; reflexivity.
Qed.

(** The ends of the range of the fallback draw: [random()] lies in
    [[0, 1)], whose least and greatest floats give 0.4 and just below 0.9. *)
Lemma random_uniform_ends :
  fst (random_uniform (fun _ => 0%float) 0.4 0.9 w0) = 0.4%float
  /\ fst (random_uniform (fun _ => 0x1.fffffffffffffp-1%float) 0.4 0.9 w0)
     = 0.89999999999999991%float.
Proof. split; reflexivity. Qed.

(** The fallback value of [predict_success] is the draw of
    [random.uniform(0.4, 0.9)]: the first draw when the call failed, a
    second one when the reply was no float. *)
Lemma predict_success_fallback (oracle : Oracle) (random : nat -> float)
  (s : State) (t : Tool) (args : list PyVal) (w : World) :
  (prob_reply oracle (gpt_calls w) s t args = ProbFailed ->
   fst (predict_success oracle random s t args w)
   = (0.4 + (0.9 - 0.4) * random (draws w))%float)
  /\ (prob_reply oracle (gpt_calls w) s t args = ProbUnparsable ->
      fst (predict_success oracle random s t args w)
      = (0.4 + (0.9 - 0.4) * random (S (draws w)))%float).
Proof.
  unfold predict_success, bind, random_uniform, call_gpt_prob, ret; simpl.
  split; intros ->; reflexivity.
Qed.

(** ** Further properties of planner_viz.py *)

(** On parsed replies the expansion loops of planner_viz.py never raise:
    no simulated call's exception and no division error escapes them. *)
Lemma Planner_expansion_never_raises (oracle : Oracle)
  (random : nat -> float) (node : Node) (q : string)
  (ranked : list (Tool * float)) (best : option Best) (w : World) :
  exists r,
    fst (Planner.eval_tools oracle random node q ranked best w) = Ret r.
Proof. rewrite eval_tools_fold. simpl. eauto. Qed.

(** OPEN of planner_viz.py never holds more than one node. *)
Theorem Planner_open_holds_at_most_one_node (oracle : Oracle)
  (random : nat -> float) (q : string) (k : nat) (w : World) (init : State)
  (c : Config) :
  turns (Planner.astar_turn oracle random q) k (Planner.start w init) = Some c ->
  List.length (open_set c) <= 1.
Proof.
  apply (open_at_most_one _ _ (Planner_turn_shape oracle random q)).
Qed.

Lemma Planner_open_holds_at_most_one_node_witness :
  List.length (open_set (mkConfig [node_book] [State0] (mkWorld 5 3))) <= 1.
Proof.
  apply (Planner_open_holds_at_most_one_node failing_oracle half question 1
           w0 State0).
  vm_compute. reflexivity.
Defined.

(** * Further properties of the code *)

(** ** Plans progress by one field per step *)



Section Chain.
Variable E : PyExn -> Prop.
Variable turn : Config -> Turn.
Hypothesis shape : turn_shape E turn.
Variable init : State.


End Chain.





(** ** Executing a plan *)

Lemma run_plan_from_mirrors (str_args : list PyVal -> string) (p : Plan) :
  forall (idx : nat) (exe : Executor),
  exists rows,
    run_plan_from str_args idx p exe
    = (match fst (replay p (exe_state exe)) with
       | Ret _ => Ret (history exe ++ rows)
       | Raise e => Raise e
       end,
       mkExecutor (snd (replay p (exe_state exe))) (history exe ++ rows))
    /\ match fst (replay p (exe_state exe)) with
       | Ret _ => List.length rows = List.length p
       | Raise _ => List.length rows < List.length p
       end
    /\ forall k row, nth_error rows k = Some row ->
         row_Step row = idx + k
         /\ (exists step, nth_error p k = Some step
               /\ row_Tool row = name (fst step)
               /\ row_Args row = str_args (snd step))
         /\ row_Origin row
            = origin (snd (replay (firstn (S k) p) (exe_state exe)))
         /\ row_Destination row
            = destination (snd (replay (firstn (S k) p) (exe_state exe)))
         /\ row_Transport row
            = transport (snd (replay (firstn (S k) p) (exe_state exe)))
         /\ row_Confirmed row
            = booking_confirmed
                (snd (replay (firstn (S k) p) (exe_state exe))).
Proof.
  induction p as [|[t a] p IH]; intros idx [s h]; simpl.
  - exists []. rewrite app_nil_r. repeat split; try reflexivity.
    all: destruct k; discriminate.
  - unfold run_step. simpl.
    destruct (Tool_call t s a) as [[b|e] s1] eqn:Hc.
    + destruct (IH (S idx) (mkExecutor s1
                 (h ++ [mkRow idx (name t) (str_args a) (origin s1)
                          (destination s1) (transport s1)
                          (booking_confirmed s1)]))) as (rows & Hrun & Hlen & Hrows).
      simpl in *.
      exists (mkRow idx (name t) (str_args a) (origin s1)
                (destination s1) (transport s1) (booking_confirmed s1) :: rows).
      rewrite Hrun. rewrite <- !app_assoc. simpl. split; [reflexivity|].
      split.
      * destruct (fst (replay p s1)); simpl; lia.
      * intros [|k] row Hk; simpl in Hk.
        -- inversion Hk; subst; simpl. rewrite Nat.add_0_r.
           split; [reflexivity|]. split; [exists (t, a); auto|].
           destruct p; simpl; auto.
        -- destruct (Hrows k row Hk) as (H1 & H2 & H3).
           split; [lia|]. split; [exact H2|].
           exact H3.
    + exists []. rewrite app_nil_r. simpl. split; [reflexivity|].
      split; [lia|]. intros [|k] row Hk; discriminate.
Qed.

(** ** What the proposals guarantee *)

Lemma ltb_leb (a b : float) :
  PrimFloat.ltb a b = true -> PrimFloat.leb a b = true.
Proof.
  rewrite ltb_spec, leb_spec. unfold SFltb, SFleb.
  destruct (SFcompare (Prim2SF a) (Prim2SF b)) as [[| |]|]; auto.
Qed.

Lemma clamp01_range (p : float) : in_unit_interval (clamp01 p).
Proof.
  unfold in_unit_interval, clamp01, PyFloat.max, PyFloat.min, PyFloat.gt,
    PyFloat.lt.
  destruct (PrimFloat.ltb p 1) eqn:H1.
  - destruct (PrimFloat.ltb 0 p) eqn:H0.
    + split; now apply ltb_leb.
    + split; reflexivity.
  - split; reflexivity.
Qed.

Lemma heuristic_rank_range (s : State) (t : Tool) :
  In t TOOLS -> in_unit_interval (Planner.heuristic_rank s t).
Proof.
  unfold in_unit_interval, Planner.heuristic_rank. simpl.
  intros [<-|[<-|[<-|[<-|[]]]]]; simpl;
    destruct (truthy (origin s)), (truthy (destination s)),
      (truthy (transport s)); split; reflexivity.
Qed.

Lemma rank_items_range (candidates : list Tool)
  (items : list (PyVal * float)) (ranked : list (Tool * float))
  (t : Tool) (p : float) :
  rank_items candidates items = Some ranked ->
  In (t, p) ranked -> in_unit_interval p.
Proof.
  revert ranked. induction items as [|[nm p0] rest IH]; intros ranked; simpl.
  - intros H; inversion H; subst. intros [].
  - destruct (hashable nm); simpl; [|discriminate].
    destruct (rank_items candidates rest) as [r|]; [|discriminate].
    destruct nm as [| | |n|]; intros H; inversion H; subst; eauto.
    destruct (name2tool candidates n) as [t0|];
      inversion H; subst; eauto.
    intros [Heq|Hin]; eauto. inversion Heq; subst. apply clamp01_range.
Qed.

Lemma ranked_of_reply_range (candidates : list Tool) (raw : RankReply)
  (t : Tool) (p : float) :
  In (t, p) (ranked_of_reply candidates raw) -> in_unit_interval p.
Proof.
  unfold ranked_of_reply. destruct raw as [| |items]; try (intros []).
  destruct (rank_items candidates items) as [r|] eqn:E; [|intros []].
  eapply rank_items_range; eauto.
Qed.

(** Whatever the model's ranking says, [propose_tools] of either planner
    returns only registry tools whose precondition holds in the state, each
    with a prior between 0 and 1. *)
Theorem propose_tools_sound (oracle : Oracle) (s : State) (q : string)
  (k : nat) (w : World) (t : Tool) (p : float) :
  In (t, p) (fst (Planner.propose_tools oracle s q k w))
  \/ In (t, p) (fst (planner.propose_tools oracle s q k w)) ->
  In t TOOLS /\ precondition t s = true /\ in_unit_interval p.
Proof.
  intros H.
  assert (Ha : In t (applicable s)).
  { destruct H as [H|H];
      [eapply Planner_propose_tools_in|eapply planner_propose_tools_in]; eauto. }
  apply applicable_TOOLS in Ha as [Hin Hpre]. repeat split; auto;
  destruct H as [H|H].
  - unfold Planner.propose_tools in H.
    destruct (applicable s) as [|t0 cands] eqn:Ha; [destruct H|].
    unfold bind in H. simpl in H. apply firstn_in in H.
    destruct (ranked_of_reply (t0 :: cands) _) as [|r ranked] eqn:Er.
    + apply sorted_desc_in in H.
      change (In (t, p) (map (fun t1 => (t1, Planner.heuristic_rank s t1))
                           (t0 :: cands))) in H.
      apply in_map_iff in H as (t1 & Heq & _). inversion Heq; subst.
      now apply heuristic_rank_range.
    + rewrite <- Er in H. apply ranked_of_reply_range in H. apply H.
  - unfold planner.propose_tools in H.
    destruct (applicable s) as [|t0 cands] eqn:Ha; [destruct H|].
    simpl in H. apply firstn_in in H.
    apply ranked_of_reply_range in H. apply H.
  - unfold Planner.propose_tools in H.
    destruct (applicable s) as [|t0 cands] eqn:Ha; [destruct H|].
    unfold bind in H. simpl in H. apply firstn_in in H.
    destruct (ranked_of_reply (t0 :: cands) _) as [|r ranked] eqn:Er.
    + apply sorted_desc_in in H.
      change (In (t, p) (map (fun t1 => (t1, Planner.heuristic_rank s t1))
                           (t0 :: cands))) in H.
      apply in_map_iff in H as (t1 & Heq & _). inversion Heq; subst.
      now apply heuristic_rank_range.
    + rewrite <- Er in H. apply ranked_of_reply_range in H. apply H.
  - unfold planner.propose_tools in H.
    destruct (applicable s) as [|t0 cands] eqn:Ha; [destruct H|].
    simpl in H. apply firstn_in in H.
    apply ranked_of_reply_range in H. apply H.
Qed.

Lemma non_goal_has_applicable (s : State) :
  is_goal s = false -> applicable s <> [].
Proof.
  destruct s as [o d t b]. unfold is_goal, applicable, TOOLS. simpl.
  intros ->. destruct (is_none o), (is_none d), (is_none t); simpl;
    discriminate.
Qed.

Lemma insert_desc_length (x : Tool * float) (l : list (Tool * float)) :
  List.length (Planner.insert_desc x l) = S (List.length l).
Proof.
  induction l as [|y l IH]; simpl; [reflexivity|].
  destruct (PyFloat.lt (snd y) (snd x)); simpl; auto.
Qed.

Lemma sorted_desc_length (l : list (Tool * float)) :
  List.length (Planner.sorted_desc l) = List.length l.
Proof.
  unfold Planner.sorted_desc.
  assert (G : forall acc,
             List.length (fold_left (fun a x => Planner.insert_desc x a) l acc)
             = List.length l + List.length acc).
  { induction l as [|x l IH]; intros acc; simpl; [reflexivity|].
    rewrite IH, insert_desc_length. lia. }
  rewrite G. simpl. lia.
Qed.

(** In planner_viz.py, on a state that is not a goal and with a positive
    [top_k], [propose_tools] returns at least one tool and at most
    [top_k]: some registry tool is applicable, and the heuristic ranking
    steps in when the model's ranking is empty or unusable. *)
Theorem Planner_propose_tools_nonempty (oracle : Oracle) (s : State)
  (q : string) (k : nat) (w : World) :
  is_goal s = false ->
  List.length (fst (Planner.propose_tools oracle s q (S k) w)) >= 1
  /\ List.length (fst (Planner.propose_tools oracle s q (S k) w)) <= S k.
Proof.
  intros Hg. split; [|apply Planner_propose_tools_length].
  apply non_goal_has_applicable in Hg.
  unfold Planner.propose_tools.
  destruct (applicable s) as [|t0 cands] eqn:Ha; [congruence|].
  unfold bind. cbn [call_gpt_rank fst snd ret].
  destruct (ranked_of_reply (t0 :: cands) _) as [|r ranked].
  - pose proof (sorted_desc_length
                  (map (fun t => (t, Planner.heuristic_rank s t)) (t0 :: cands)))
      as Hl.
    destruct (Planner.sorted_desc _) as [|x l]; simpl in *; [discriminate|lia].
  - simpl. lia.
Qed.

(** ** The fallback arguments *)

Lemma string_app_assoc (a b c : string) :
  ((a ++ b) ++ c = a ++ (b ++ c))%string.
Proof. induction a as [|x a IH]; simpl; [reflexivity|now rewrite IH]. Qed.

Lemma lowers_all_lower (s w r : string) :
  CityRe.lowers s = (w, r) ->
  (s = w ++ r)%string
  /\ forall c, In c (list_ascii_of_string w) -> CityRe.is_lower c = true.
Proof.
  revert w r. induction s as [|c s IH]; intros w r; simpl.
  - intros H; inversion H; subst. split; [reflexivity|intros c []].
  - destruct (CityRe.is_lower c) eqn:Hc.
    + destruct (CityRe.lowers s) as [w0 r0]. intros H; inversion H; subst.
      destruct (IH w0 r eq_refl) as [-> Hall]. split; [reflexivity|].
      simpl. intros c0 [<-|H0]; auto.
    + intros H; inversion H; subst. split; [reflexivity|intros c0 []].
Qed.

Lemma word_shape (s w r : string) :
  CityRe.word s = Some (w, r) ->
  (s = w ++ r)%string
  /\ exists c w', w = String c w' /\ CityRe.is_upper c = true /\ w' <> ""
     /\ forall c0, In c0 (list_ascii_of_string w') -> CityRe.is_lower c0 = true.
Proof.
  unfold CityRe.word. destruct s as [|c s]; [discriminate|].
  destruct (CityRe.is_upper c) eqn:Hc; [|discriminate].
  destruct (CityRe.lowers s) as [w0 r0] eqn:Hl.
  destruct w0 as [|c1 w1]; [discriminate|].
  intros H; inversion H; subst.
  apply lowers_all_lower in Hl as [-> Hall]. split; [reflexivity|].
  exists c, (String c1 w1). repeat split; auto. discriminate.
Qed.

Lemma words_split (fuel : nat) (s ws r : string) :
  CityRe.words fuel s = (ws, r) -> (s = ws ++ r)%string.
Proof.
  revert s ws r. induction fuel as [|n IH]; intros s ws r; simpl.
  - intros H; inversion H; reflexivity.
  - destruct s as [|sp s']; [intros H; inversion H; reflexivity|].
    destruct (CityRe.is_space sp); [|intros H; inversion H; reflexivity].
    destruct (CityRe.word s') as [[w r0]|] eqn:Hw;
      [|intros H; inversion H; reflexivity].
    destruct (CityRe.words n r0) as [ws0 r1] eqn:Hws.
    intros H; inversion H; subst.
    apply word_shape in Hw as [-> _]. apply IH in Hws as ->.
    simpl. now rewrite string_app_assoc.
Qed.

Lemma match_here_shape (s m r : string) :
  CityRe.match_here s = Some (m, r) ->
  (s = m ++ r)%string
  /\ exists c m', m = String c m' /\ CityRe.is_upper c = true /\ m' <> "".
Proof.
  unfold CityRe.match_here.
  destruct (CityRe.word s) as [[w r0]|] eqn:Hw; [|discriminate].
  destruct (CityRe.words (String.length r0) r0) as [ws r1] eqn:Hws.
  intros H; inversion H; subst.
  apply word_shape in Hw as [-> (c & w' & -> & Hc & Hne & _)].
  apply words_split in Hws as ->. split.
  - now rewrite string_app_assoc.
  - exists c, (w' ++ ws)%string. repeat split; auto.
    destruct w'; [congruence|discriminate].
Qed.

Lemma findall_shape (text m : string) :
  In m (CityRe.findall text) ->
  exists c m', m = String c m' /\ CityRe.is_upper c = true /\ m' <> "".
Proof.
  unfold CityRe.findall. generalize (String.length text) as fuel.
  intros fuel. revert text. induction fuel as [|n IH]; intros text; simpl.
  - intros [].
  - destruct text as [|c s]; [intros []|].
    destruct (CityRe.match_here (String c s)) as [[m0 r]|] eqn:Hm.
    + intros [<-|H]; [|eauto]. now apply match_here_shape in Hm as [_ H].
    + eauto.
Qed.

Lemma dedup_in (seen l : list string) (x : string) :
  In x (dedup seen l) <-> In x l /\ ~ In x seen.
Proof.
  revert seen. induction l as [|c l IH]; intros seen; simpl; [tauto|].
  destruct (existsb (String.eqb c) seen) eqn:E.
  - rewrite IH. apply existsb_exists in E as (y & Hy & Heq).
    apply String.eqb_eq in Heq. subst y.
    split; [tauto|]. intros [[->|H] Hn]; tauto.
  - simpl. rewrite IH. simpl.
    assert (Hc : ~ In c seen).
    { intros Hin. apply Bool.not_true_iff_false in E. apply E.
      apply existsb_exists. exists c. split; [exact Hin|apply String.eqb_refl]. }
    destruct (String.eqb_spec c x) as [->|Hne]; [tauto|]. tauto.
Qed.

Lemma dedup_NoDup (seen l : list string) : NoDup (dedup seen l).
Proof.
  revert seen. induction l as [|c l IH]; intros seen; simpl; [constructor|].
  destruct (existsb (String.eqb c) seen); [apply IH|].
  constructor; [|apply IH]. rewrite dedup_in. simpl. tauto.
Qed.

Lemma firstn_NoDup {A : Type} (k : nat) (l : list A) :
  NoDup l -> NoDup (firstn k l).
Proof.
  revert l. induction k as [|k IH]; intros [|x l] H; simpl; try constructor.
  - inversion H; subst. intros Hin. apply firstn_in in Hin. contradiction.
  - inversion H; subst. now apply IH.
Qed.

Lemma skipn_in {A : Type} (k : nat) (l : list A) (x : A) :
  In x (skipn k l) -> In x l.
Proof.
  revert l. induction k as [|k IH]; intros [|y l]; simpl; auto.
Qed.

Lemma fallback_cases (t : Tool) :
  In t TOOLS ->
  (name t = "set_origin" /\ arg_names t = ["city"])
  \/ (name t = "set_destination" /\ arg_names t = ["city"])
  \/ (name t = "select_transport" /\ arg_names t = ["mode"])
  \/ (name t = "confirm_booking" /\ arg_names t = []).
Proof. simpl. intros [<-|[<-|[<-|[<-|[]]]]]; simpl; tauto. Qed.

Lemma map_tuple1_shape (l : list string) (args : list PyVal) :
  (forall c, In c l -> c <> "") ->
  In args (map tuple1 l) -> nonempty_string_tuple args.
Proof.
  intros Hl Hin. apply in_map_iff in Hin as (c & <- & Hc).
  exists c. split; [reflexivity|auto].
Qed.

Lemma cities_nonempty (q c : string) :
  In c (dedup [] (CityRe.findall q)) -> c <> "".
Proof.
  rewrite dedup_in. intros [H _].
  apply findall_shape in H as (c0 & m & -> & _).
  discriminate.
Qed.

Lemma fallback_args_shape (t : Tool) (q : string) :
  In t TOOLS ->
  fallback_args t q <> []
  /\ forall args, In args (fallback_args t q) ->
       List.length args = List.length (arg_names t)
       /\ (arg_names t <> [] -> nonempty_string_tuple args).
Proof.
  intros Hin. unfold fallback_args.
  destruct (fallback_cases t Hin) as [[-> ->]|[[-> ->]|[[-> ->]|[-> ->]]]];
    cbv beta iota delta [String.eqb Ascii.eqb Bool.eqb andb];
    cbn [List.length].
  - split.
    + destruct (firstn 3 (dedup [] (CityRe.findall q))); simpl; discriminate.
    + intros args Ha.
      assert (Hs : nonempty_string_tuple args).
      { destruct (firstn 3 (dedup [] (CityRe.findall q))) as [|c l] eqn:E.
        - simpl in Ha. destruct Ha as [<-|[]]. exists "New York".
          split; [reflexivity|discriminate].
        - change (In args (map tuple1 (c :: l))) in Ha.
          apply map_tuple1_shape in Ha; [exact Ha|].
          intros c0 Hc0. rewrite <- E in Hc0. apply firstn_in in Hc0.
          eapply cities_nonempty; eauto. }
      destruct Hs as (c & -> & Hc). split; [reflexivity|].
      intros _. exists c. auto.
  - split.
    + destruct (firstn 3 (skipn 1 (dedup [] (CityRe.findall q)))); simpl;
        discriminate.
    + intros args Ha.
      assert (Hs : nonempty_string_tuple args).
      { destruct (firstn 3 (skipn 1 (dedup [] (CityRe.findall q))))
          as [|c l] eqn:E.
        - simpl in Ha. destruct Ha as [<-|[]]. exists "Boston".
          split; [reflexivity|discriminate].
        - change (In args (map tuple1 (c :: l))) in Ha.
          apply map_tuple1_shape in Ha; [exact Ha|].
          intros c0 Hc0. rewrite <- E in Hc0. apply firstn_in in Hc0.
          apply skipn_in in Hc0. eapply cities_nonempty; eauto. }
      destruct Hs as (c & -> & Hc). split; [reflexivity|].
      intros _. exists c. auto.
  - split; [discriminate|].
    intros args [<-|[<-|[<-|[]]]]; (split; [reflexivity|]); intros _;
      eexists; (split; [reflexivity|discriminate]).
  - split; [discriminate|]. intros args [<-|[]]. split; [reflexivity|].
    intros H; congruence.
Qed.

Lemma firstn_nonempty {A : Type} (k : nat) (l : list A) :
  l <> [] -> firstn (S k) l <> [].
Proof. destruct l; simpl; [congruence|discriminate]. Qed.


(** ** Equality of values and the diff of two states *)

Lemma PyVal_list_ind (P : PyVal -> Prop) :
  P PyNone -> (forall b, P (PyBool b)) -> (forall n, P (PyInt n)) ->
  (forall s, P (PyStr s)) -> (forall l, Forall P l -> P (PyList l)) ->
  forall v, P v.
Proof.
  intros Hn Hb Hi Hs Hl. fix IH 1.
  intros [|b|n|s|l]; [exact Hn|apply Hb|apply Hi|apply Hs|].
  apply Hl. induction l as [|x l IHl]; constructor; [apply IH|exact IHl].
Qed.

Lemma py_eq_refl_all (v : PyVal) : py_eq v v = true.
Proof.
  induction v as [|b|n|s|l IH] using PyVal_list_ind; simpl.
  - reflexivity.
  - now destruct b.
  - apply Z.eqb_refl.
  - apply String.eqb_refl.
  - induction IH as [|x l Hx _ IHl]; [reflexivity|]. now rewrite Hx, IHl.
Qed.

Lemma py_eq_sym (a b : PyVal) : py_eq a b = py_eq b a.
Proof.
  revert b. induction a as [|x|n|s|l IH] using PyVal_list_ind;
    intros [|y|m|t|l']; simpl; try reflexivity.
  - now destruct x, y.
  - apply Z.eqb_sym.
  - apply String.eqb_sym.
  - revert l'. induction IH as [|x l Hx _ IHl]; intros [|y l'];
      try reflexivity. now rewrite Hx, IHl.
Qed.

Lemma py_eq_trans (a b c : PyVal) :
  py_eq a b = true -> py_eq b c = true -> py_eq a c = true.
Proof.
  revert b c. induction a as [|x|n|s|l IH] using PyVal_list_ind;
    intros [|y|m|t|l1] [|z|k|u|l2]; simpl; try discriminate; auto.
  - destruct x, y, z; simpl; auto.
  - destruct x, y; simpl; auto; discriminate.
  - destruct x; simpl; rewrite !Z.eqb_eq; intros; subst; destruct z; simpl in *;
      auto; discriminate.
  - rewrite !Z.eqb_eq. intros -> ->. now destruct x.
  - rewrite !Z.eqb_eq. intros -> H. destruct y, z; simpl in *; auto;
      discriminate.
  - rewrite !Z.eqb_eq. intros -> ->. reflexivity.
  - rewrite !Z.eqb_eq. intros -> H. exact H.
  - rewrite !Z.eqb_eq. intros -> ->. reflexivity.
  - rewrite !String.eqb_eq. intros -> ->. reflexivity.
  - revert l1 l2. induction IH as [|x l Hx _ IHl];
      intros [|y l1] [|z l2]; try discriminate; auto.
    rewrite !andb_true_iff. intros [H1 H2] [H3 H4]. split; eauto.
Qed.

Lemma insert_key_in (k x : string) (l : list string) :
  In x (insert_key k l) <-> x = k \/ In x l.
Proof.
  induction l as [|y l IH]; simpl; [intuition congruence|].
  destruct (String.compare k y) eqn:E; simpl.
  - apply String.compare_eq_iff in E. subst y. intuition congruence.
  - intuition congruence.
  - rewrite IH. intuition congruence.
Qed.

Lemma sorted_keys_in (prev curr : PyDict) (x : string) :
  In x (sorted_keys prev curr)
  <-> In x (map fst prev) \/ In x (map fst curr).
Proof.
  unfold sorted_keys. rewrite <- in_app_iff.
  induction (map fst prev ++ map fst curr) as [|k l IH]; simpl; [tauto|].
  rewrite insert_key_in, IH. intuition congruence.
Qed.

Lemma dict_get_missing (d : PyDict) (k : string) :
  ~ In k (map fst d) -> dict_get d k = PyNone.
Proof.
  unfold dict_get. intros H.
  destruct (find (fun kv => fst kv =? k) d) as [kv|] eqn:F; [|reflexivity].
  apply find_some in F as [Hin Heq]. apply String.eqb_eq in Heq.
  exfalso. apply H. rewrite <- Heq. now apply in_map.
Qed.

Lemma string_lt_trans (a b c : string) :
  String.compare a b = Lt -> String.compare b c = Lt ->
  String.compare a c = Lt.
Proof.
  revert b c. induction a as [|x a IH]; intros [|y b] [|z c]; simpl;
    try discriminate; auto.
  unfold Ascii.compare.
  destruct (N.compare_spec (N_of_ascii x) (N_of_ascii y)) as [Exy|Lxy|Gxy];
    try discriminate;
    destruct (N.compare_spec (N_of_ascii y) (N_of_ascii z)) as [Eyz|Lyz|Gyz];
    try discriminate; intros H1 H2.
  - rewrite Exy, Eyz, N.compare_refl. eauto.
  - rewrite Exy. now apply N.compare_lt_iff in Lyz as ->.
  - rewrite <- Eyz. now apply N.compare_lt_iff in Lxy as ->.
  - assert (L : (N_of_ascii x < N_of_ascii z)%N) by lia.
    now apply N.compare_lt_iff in L as ->.
Qed.

Lemma insert_key_sorted (k : string) (l : list string) :
  StronglySorted key_lt l -> StronglySorted key_lt (insert_key k l).
Proof.
  induction l as [|x l IH]; intros Hs; simpl.
  - repeat constructor.
  - inversion Hs as [|x0 l0 Hl Hx]; subst.
    destruct (String.compare k x) eqn:E.
    + exact Hs.
    + constructor; [exact Hs|]. constructor; [exact E|].
      rewrite Forall_forall in *. intros y Hy.
      eapply string_lt_trans; [exact E|]. now apply Hx.
    + constructor; [now apply IH|].
      rewrite Forall_forall in *. intros y Hy.
      apply insert_key_in in Hy as [->|Hy]; [|now apply Hx].
      unfold key_lt. rewrite String.compare_antisym, E. reflexivity.
Qed.

Lemma sorted_keys_sorted (prev curr : PyDict) :
  StronglySorted key_lt (sorted_keys prev curr).
Proof.
  unfold sorted_keys.
  induction (map fst prev ++ map fst curr) as [|k l IH]; simpl.
  - constructor.
  - now apply insert_key_sorted.
Qed.

Lemma flat_map_keys_sorted (fn : string -> list (string * (PyVal * PyVal)))
  (l : list string) :
  (forall k e, In e (fn k) -> fn k = [e] /\ fst e = k) ->
  StronglySorted key_lt l ->
  StronglySorted key_lt (map fst (flat_map fn l)).
Proof.
  intros Hfn. induction l as [|x l IH]; intros Hs; simpl; [constructor|].
  inversion Hs as [|x0 l0 Hl Hx]; subst. rewrite map_app.
  destruct (fn x) as [|e es] eqn:E; simpl; [now apply IH|].
  destruct (Hfn x e) as [He Hk]; [rewrite E; now left|].
  rewrite E in He. inversion He; subst es. simpl. rewrite Hk.
  constructor; [now apply IH|].
  rewrite Forall_forall in *. intros y Hy.
  apply in_map_iff in Hy as (e' & <- & He').
  apply in_flat_map in He' as (k' & Hk' & He').
  destruct (Hfn k' e' He') as [_ ->]. now apply Hx.
Qed.

(** [dict_diff] has an entry for a key exactly when the two dictionaries'
    [get] differ on it, the entry holds the two values (before, after), and
    the keys of the diff come in strictly increasing order. *)
Theorem dict_diff_entries (prev curr : PyDict) (k : string) :
  diff_get (dict_diff prev curr) k
  = (if py_eq (dict_get prev k) (dict_get curr k) then None
     else Some (dict_get prev k, dict_get curr k))
  /\ StronglySorted key_lt (map fst (dict_diff prev curr)).
Proof.
  split.
  - unfold diff_get, dict_diff.
    assert (G : forall l,
      find (fun e => fst e =? k)
        (flat_map
           (fun k0 =>
              if negb (py_eq (dict_get prev k0) (dict_get curr k0))
              then [(k0, (dict_get prev k0, dict_get curr k0))] else []) l)
      = if existsb (String.eqb k) l
           && negb (py_eq (dict_get prev k) (dict_get curr k))
        then Some (k, (dict_get prev k, dict_get curr k)) else None).
    { induction l as [|x l IH]; simpl; [reflexivity|].
      destruct (String.eqb_spec k x) as [<-|Hne]; simpl.
      - destruct (py_eq (dict_get prev k) (dict_get curr k)) eqn:Ep; simpl.
        + rewrite IH, andb_false_r. reflexivity.
        + now rewrite String.eqb_refl.
      - destruct (py_eq (dict_get prev x) (dict_get curr x)); simpl;
          [exact IH|].
        destruct (String.eqb_spec x k) as [->|_]; [congruence|exact IH]. }
    rewrite G.
    destruct (py_eq (dict_get prev k) (dict_get curr k)) eqn:Ep; simpl;
      [now rewrite andb_false_r|].
    rewrite andb_true_r.
    destruct (existsb (String.eqb k) (sorted_keys prev curr)) eqn:Ex;
      [reflexivity|].
    exfalso.
    assert (Hn : ~ In k (sorted_keys prev curr)).
    { intros Hin. apply Bool.not_true_iff_false in Ex. apply Ex.
      apply existsb_exists. exists k. split; [exact Hin|apply String.eqb_refl]. }
    rewrite sorted_keys_in in Hn.
    rewrite !dict_get_missing in Ep by tauto. discriminate.
  - apply flat_map_keys_sorted; [|apply sorted_keys_sorted].
    intros k0 e. destruct (negb _); simpl; [|tauto].
    intros [<-|[]]. auto.
Qed.

Lemma state_diff_unfold (s s' : State) :
  dict_diff (state_to_dict s) (state_to_dict s')
  = (if negb (Bool.eqb (booking_confirmed s) (booking_confirmed s'))
     then [("booking_confirmed",
            (PyBool (booking_confirmed s), PyBool (booking_confirmed s')))]
     else [])
    ++ (if negb (py_eq (destination s) (destination s'))
        then [("destination", (destination s, destination s'))] else [])
    ++ (if negb (py_eq (origin s) (origin s'))
        then [("origin", (origin s, origin s'))] else [])
    ++ (if negb (py_eq (transport s) (transport s'))
        then [("transport", (transport s, transport s'))] else [])
    ++ [].
Proof. reflexivity. Qed.

(** A call of a registry tool changes at most one key of the state's
    dictionary, and none when the call raises. *)
Theorem tool_call_changes_at_most_one_key (t : Tool) (s s' : State)
  (args : list PyVal) (r : Res bool) :
  In t TOOLS -> Tool_call t s args = (r, s') ->
  List.length (dict_diff (state_to_dict s) (state_to_dict s')) <= 1
  /\ (forall e, r = Raise e ->
        dict_diff (state_to_dict s) (state_to_dict s') = []).
Proof.
  intros Hin Hc. rewrite state_diff_unfold.
  assert (Hcases : s' = s
                   \/ (exists v, s' = set_origin_attr s v)
                   \/ (exists v, s' = set_destination_attr s v)
                   \/ (exists v, s' = set_transport_attr s v)
                   \/ s' = set_booking_confirmed_attr s true).
  { unfold Tool_call in Hc. destruct (precondition t s);
      simpl in Hc; [|inversion Hc; auto].
    simpl in Hin. destruct Hin as [<-|[<-|[<-|[<-|[]]]]]; simpl in Hc;
      try (destruct args as [|v args]; simpl in Hc; inversion Hc; eauto 6);
      inversion Hc; auto. }
  assert (Hraise : forall e, r = Raise e -> s' = s).
  { intros e ->. unfold Tool_call in Hc. destruct (precondition t s);
      simpl in Hc; [|now inversion Hc].
    simpl in Hin. destruct Hin as [<-|[<-|[<-|[<-|[]]]]]; simpl in Hc;
      try (destruct args as [|v args]; simpl in Hc; now inversion Hc);
      inversion Hc. }
  split.
  - destruct Hcases as [->|[[v ->]|[[v ->]|[[v ->]| ->]]]]; simpl;
      rewrite ?py_eq_refl_all, ?Bool.eqb_reflx; simpl;
      repeat match goal with
      | |- context [if negb ?b then _ else _] => destruct b; simpl
      end; lia.
  - intros e He. rewrite (Hraise e He).
    now rewrite !py_eq_refl_all, Bool.eqb_reflx.
Qed.

(** ** The plans that the searches return *)


(** ** The execution loop of planner.py's [main] *)

Lemma existsb_keys (seq : list (string * list PyVal)) (n : string) :
  existsb (fun kv => fst kv =? n) seq
  = existsb (String.eqb n) (map fst seq).
Proof.
  induction seq as [|kv seq IH]; simpl; [reflexivity|].
  now rewrite IH, String.eqb_sym.
Qed.

Lemma main_execute_first_by_name (p : Plan)
  (tool_sequence : list (string * list PyVal)) (s : State) :
  main_execute p tool_sequence s
  = match replay (first_by_name (map fst tool_sequence) p) s with
    | (Ret _, s') =>
        (Ret (tool_sequence
              ++ sequence_of (first_by_name (map fst tool_sequence) p)), s')
    | (Raise e, s') => (Raise e, s')
    end.
Proof.
  revert tool_sequence s.
  induction p as [|[t a] p IH]; intros seq s; simpl.
  - now rewrite app_nil_r.
  - rewrite existsb_keys.
    destruct (existsb (String.eqb (name t)) (map fst seq)); [apply IH|].
    simpl. destruct (Tool_call t s a) as [[b|e] s1]; [|reflexivity].
    rewrite IH, map_app. simpl.
    destruct (replay (first_by_name (map fst seq ++ [name t]) p) s1)
      as [[u|e] s2]; [|reflexivity].
    now rewrite <- app_assoc.
Qed.

Lemma first_by_name_keys (p : Plan) : forall seen : list string,
  NoDup seen ->
  NoDup (seen ++ map fst (sequence_of (first_by_name seen p))).
Proof.
  induction p as [|[t a] p IH]; intros seen Hn; simpl.
  - now rewrite app_nil_r.
  - destruct (existsb (String.eqb (name t)) seen) eqn:E; [now apply IH|].
    simpl.
    change (seen ++ name t :: ?l) with (seen ++ [name t] ++ l).
    rewrite app_assoc. apply IH.
    apply NoDup_app; [exact Hn|repeat constructor; intros []|].
    intros x Hx [<-|[]].
    assert (existsb (String.eqb (name t)) seen = true); [|congruence].
    apply existsb_exists. exists (name t). split; [exact Hx|].
    apply String.eqb_refl.
Qed.

(** The loop of [main] executes the first step of every tool name and
    skips the later steps of a name: it replays [first_by_name], stops at
    the first call that raises, and otherwise leaves in [tool_sequence] one
    entry per executed step, in order, no key twice. *)
Theorem main_executes_first_step_of_each_name (p : Plan) (s : State) :
  main_execute p [] s
  = match replay (first_by_name [] p) s with
    | (Ret _, s') => (Ret (sequence_of (first_by_name [] p)), s')
    | (Raise e, s') => (Raise e, s')
    end
  /\ NoDup (map fst (sequence_of (first_by_name [] p)))
  /\ (forall step, In step (first_by_name [] p) -> In step p)
  /\ (forall step, In step p ->
        exists step', In step' (first_by_name [] p)
                      /\ name (fst step') = name (fst step)).
Proof.
  split; [exact (main_execute_first_by_name p [] s)|].
  split; [exact (first_by_name_keys p [] (NoDup_nil _))|].
  split.
  - generalize (@nil string) as seen.
    induction p as [|[t a] p IH]; intros seen step; simpl; [auto|].
    destruct (existsb (String.eqb (name t)) seen); simpl.
    + intros H. right. eapply IH; eauto.
    + intros [H|H]; [auto|]. right. eapply IH; eauto.
  - assert (G : forall (seen : list string) step, In step p ->
      In (name (fst step)) seen
      \/ exists step', In step' (first_by_name seen p)
                       /\ name (fst step') = name (fst step)).
    { induction p as [|[t a] p IH]; intros seen step; simpl; [intros []|].
      intros [<-|H]; simpl.
      - destruct (existsb (String.eqb (name t)) seen) eqn:E.
        + left. apply existsb_exists in E as (x & Hx & Ex).
          apply String.eqb_eq in Ex. now subst x.
        + right. exists (t, a). simpl. auto.
      - destruct (existsb (String.eqb (name t)) seen) eqn:E.
        + apply IH; auto.
        + destruct (IH (seen ++ [name t]) step H) as [Hs|(step' & Hi & Hn)].
          * apply in_app_or in Hs as [Hs|[Hs|[]]]; [auto|].
            right. exists (t, a). simpl. auto.
          * right. exists step'. simpl. auto. }
    intros step Hs. destruct (G [] step Hs) as [[]|H]. exact H.
Qed.

(** ** The executor *)

(** [Executor(s).run_plan(p)] performs the calls of [replay p s]: it ends
    in the same state, returns the history when no call raises and raises
    the first exception otherwise; the history has one row per completed
    step, numbered from 1, naming the step's tool and arguments and holding
    the fields of the state after that step. *)
Theorem Executor_run_plan_mirrors_replay (str_args : list PyVal -> string)
  (p : Plan) (s : State) :
  exists rows,
    run_plan str_args p (Executor_init (Some s))
    = (match fst (replay p s) with
       | Ret _ => Ret rows
       | Raise e => Raise e
       end, mkExecutor (snd (replay p s)) rows)
    /\ match fst (replay p s) with
       | Ret _ => List.length rows = List.length p
       | Raise _ => List.length rows < List.length p
       end
    /\ forall k row, nth_error rows k = Some row ->
         row_Step row = S k
         /\ (exists step, nth_error p k = Some step
               /\ row_Tool row = name (fst step)
               /\ row_Args row = str_args (snd step))
         /\ row_Origin row = origin (snd (replay (firstn (S k) p) s))
         /\ row_Destination row
            = destination (snd (replay (firstn (S k) p) s))
         /\ row_Transport row = transport (snd (replay (firstn (S k) p) s))
         /\ row_Confirmed row
            = booking_confirmed (snd (replay (firstn (S k) p) s)).
Proof.
  exact (run_plan_from_mirrors str_args p 1 (Executor_init (Some s))).
Qed.

(** ** Equality of states *)

(** The [__eq__] of [State] is an equivalence: reflexive also on states
    with unhashable fields, symmetric and transitive, although the
    equality of values identifies [True] with 1 and [False] with 0. *)
Theorem state_eq_is_an_equivalence :
  (forall s, state_eq s s = true)
  /\ (forall a b, state_eq a b = state_eq b a)
  /\ (forall a b c, state_eq a b = true -> state_eq b c = true ->
        state_eq a c = true).
Proof.
  unfold state_eq. repeat split.
  - intros s. rewrite !py_eq_refl_all, Bool.eqb_reflx. reflexivity.
  - intros a b.
    rewrite (py_eq_sym (origin a)), (py_eq_sym (destination a)),
      (py_eq_sym (transport a)).
    f_equal. destruct (booking_confirmed a), (booking_confirmed b);
      reflexivity.
  - intros a b c Hab Hbc.
    apply andb_true_iff in Hab as [Hab Hb4].
    apply andb_true_iff in Hab as [Hab Hb3].
    apply andb_true_iff in Hab as [Hb1 Hb2].
    apply andb_true_iff in Hbc as [Hbc Hc4].
    apply andb_true_iff in Hbc as [Hbc Hc3].
    apply andb_true_iff in Hbc as [Hc1 Hc2].
    rewrite (py_eq_trans _ _ _ Hb1 Hc1), (py_eq_trans _ _ _ Hb2 Hc2),
      (py_eq_trans _ _ _ Hb3 Hc3).
    apply Bool.eqb_prop in Hb4, Hc4. rewrite Hb4, Hc4.
    now rewrite Bool.eqb_reflx.
Qed.

(** ** The fallback arguments fit the tools *)

(** For a registry tool the fallback of [propose_args] is never empty, and
    each of its tuples has the tool's arity, holds a non-empty string when
    the tool takes an argument, and makes the call succeed and fill one
    more field in every state that satisfies the tool's precondition. *)
Theorem fallback_args_fit_the_tool (t : Tool) (q : string) :
  In t TOOLS ->
  fallback_args t q <> []
  /\ forall args, In args (fallback_args t q) ->
       List.length args = List.length (arg_names t)
       /\ (arg_names t <> [] -> nonempty_string_tuple args)
       /\ forall s, precondition t s = true ->
            exists s', Tool_call t s args = (Ret true, s')
                       /\ todo s' + 1 = todo s.
Proof.
  intros Hin. destruct (fallback_args_shape t q Hin) as [Hne Hall].
  split; [exact Hne|]. intros args Ha.
  destruct (Hall args Ha) as [Hlen Hstr].
  split; [exact Hlen|]. split; [exact Hstr|].
  intros s Hpre. unfold Tool_call. rewrite Hpre. cbn [negb].
  destruct s as [o d tr b]. simpl in Hin.
  destruct Hin as [<-|[<-|[<-|[<-|[]]]]]; simpl in *.
  1-3: destruct Hstr as (c & -> & Hc); [discriminate|]; simpl;
       eexists; split; [reflexivity|]; unfold todo; simpl.
  - destruct o; try discriminate. simpl. lia.
  - destruct o, d; try discriminate; simpl; lia.
  - destruct d, tr; try discriminate; simpl;
      destruct (is_none o); simpl; lia.
  - eexists. split; [reflexivity|]. unfold todo. simpl.
    destruct tr, b; try discriminate; simpl;
      destruct (is_none o), (is_none d); simpl; lia.
Qed.

Lemma fallback_args_fit_the_tool_witness :
  fallback_args set_destination question <> []
  /\ forall args, In args (fallback_args set_destination question) ->
       List.length args = List.length (arg_names set_destination)
       /\ (arg_names set_destination <> [] -> nonempty_string_tuple args)
       /\ forall s, precondition set_destination s = true ->
            exists s', Tool_call set_destination s args = (Ret true, s')
                       /\ todo s' + 1 = todo s.
Proof.
  apply (fallback_args_fit_the_tool set_destination question).
  simpl. auto.
Defined.

(** The cities that the fallback reads off the goal text are pairwise
    distinct, they are exactly the phrases that the pattern finds, and each
    starts with a capital letter followed by at least one more
    character. *)
Theorem fallback_cities_are_distinct_capitalised_phrases (q : string) :
  NoDup (dedup [] (CityRe.findall q))
  /\ (forall c, In c (dedup [] (CityRe.findall q))
                <-> In c (CityRe.findall q))
  /\ (forall c, In c (dedup [] (CityRe.findall q)) ->
        exists a rest, c = String a rest /\ CityRe.is_upper a = true
                       /\ rest <> "").
Proof.
  split; [apply dedup_NoDup|].
  assert (G : forall c, In c (dedup [] (CityRe.findall q))
                        <-> In c (CityRe.findall q)).
  { intros c. rewrite dedup_in. simpl. intuition congruence. }
  split; [exact G|].
  intros c Hc. apply G in Hc. exact (findall_shape q c Hc).
Qed.

(** ** Instances *)

Lemma propose_tools_sound_witness :
  In set_origin TOOLS /\ precondition set_origin State0 = true
  /\ in_unit_interval (0.70 - 0.01 * 1.0)%float.
Proof.
  apply (propose_tools_sound failing_oracle State0 question 3 w0).
  left. vm_compute. auto.
Defined.

Lemma Planner_propose_tools_nonempty_witness :
  List.length (fst (Planner.propose_tools failing_oracle State0 question 3 w0))
  >= 1
  /\ List.length
       (fst (Planner.propose_tools failing_oracle State0 question 3 w0)) <= 3.
Proof.
  apply (Planner_propose_tools_nonempty failing_oracle State0 question 2 w0).
  reflexivity.
Defined.

Lemma tool_call_changes_at_most_one_key_witness :
  List.length
    (dict_diff (state_to_dict State0)
       (state_to_dict (mkState (PyStr "Oslo") PyNone PyNone false))) <= 1
  /\ (forall e, Ret true = Raise e ->
        dict_diff (state_to_dict State0)
          (state_to_dict (mkState (PyStr "Oslo") PyNone PyNone false)) = []).
Proof.
  apply (tool_call_changes_at_most_one_key set_origin State0
           (mkState (PyStr "Oslo") PyNone PyNone false) [PyStr "Oslo"]
           (Ret true)).
  - simpl. auto.
  - reflexivity.
Defined.

(** * Replies that are run: properties *)

(** ** Replies without effect: the searches agree with the parsed model *)












(** ** A reply that sets a field of the state *)

(** C1: a plan that a search returns need not replay.  [propose_args]
    evaluates the reply with the node's own state in scope, before the
    state is copied for the simulation.  When every reply is
    [[(setattr(state, 'transport', 'train') or 'New York',)]], each search
    comes back in its third turn with the plan [set_origin("New York")],
    [confirm_booking("New York")]; replayed from the empty state, its
    second step finds the precondition of [confirm_booking] false and
    raises [ValueError]. *)
Theorem evaluated_reply_gives_plan_that_does_not_replay :
  Eval.astar Viz (setattr_oracle false) half 3 w0 State0 question
  = Some (Ends (Ret two_step_plan))
  /\ Eval.astar Py (setattr_oracle true) half 3 w0 State0 question
     = Some (Ends (Ret two_step_plan))
  /\ replay two_step_plan State0
     = (Raise (ValueError "Precondition failed for confirm_booking"),
        mkState (PyStr "New York") PyNone PyNone false)
  /\ preconditions_hold two_step_plan State0 = false.
Proof. repeat split; vm_compute; reflexivity. Qed.

(** C9: a node pushed onto OPEN need not hold the replay of its plan.
    With the same replies, the first turn of either search pushes one node
    with the plan [set_origin("New York")] and a state whose transport is
    already "train", which no step of the plan has set: the copy that was
    simulated was taken from the state as the evaluation left it.  The [g]
    of the node is the cost of its plan. *)
Theorem pushed_node_is_not_the_replay_of_its_plan :
  forall v : Variant,
  exists n cl w,
    Eval.turns (Eval.astar_turn (setattr_oracle true) half v question) 1
      (Eval.start w0 State0)
    = Some (mkEConfig [n] cl w)
    /\ plan n = [(set_origin, [PyStr "New York"])]
    /\ state n = mkState (PyStr "New York") PyNone (PyStr "train") false
    /\ replay (plan n) State0
       = (Ret tt, mkState (PyStr "New York") PyNone PyNone false)
    /\ state_eq (state n) (snd (replay (plan n) State0)) = false
    /\ g n = plan_cost (plan n).
Proof.
  intros v. destruct v; do 3 eexists; (split; [vm_compute; reflexivity|]);
    repeat split.
Qed.

(** ** Replies that undo progress: a search without end *)

Lemma not_in_closed (s : State) (cl : list (State * State)) :
  Forall (fun e => snd e = undone) cl -> state_eq s undone = false ->
  in_closed s cl = false.
Proof.
  intros Hcl Hs. unfold in_closed. induction Hcl as [|e cl He Hcl IH]; simpl;
    [reflexivity|].
  rewrite He, Hs, IH. now rewrite andb_false_r.
Qed.

Lemma undoing_turn (v : Variant) (c : EConfig) :
  undoing c ->
  exists c', Eval.astar_turn undoing_oracle half v question c = ERunning c'
             /\ undoing c'.
Proof.
  intros [(n & Ho & Hs) Hcl]. destruct c as [op cl w]. simpl in Ho, Hcl.
  subst op. destruct n as [fn gn st pl]. simpl in Hs.
  assert (Hnc : in_closed st cl = false).
  { apply not_in_closed; [exact Hcl|].
    destruct Hs as [<-|[<-|[<-|[]]]]; reflexivity. }
  destruct v; cbn [Eval.astar_turn];
    unfold Eval.Planner_astar_turn, Eval.planner_astar_turn;
    cbn [e_open e_closed e_world heappop pop_least state plan];
    rewrite Hnc;
    destruct Hs as [<-|[<-|[<-|[]]]];
    (eexists; split; [cbv; reflexivity|]);
    (split; [eexists; split; [reflexivity|]; simpl; auto
            |constructor; [reflexivity|exact Hcl]]).
Qed.

Lemma undoing_start : undoing (Eval.start w0 State0).
Proof.
  split; [|constructor]. eexists. split; [reflexivity|]. simpl. auto.
Qed.

Lemma undoing_turns (v : Variant) (k : nat) :
  forall c, undoing c ->
    exists c', Eval.turns (Eval.astar_turn undoing_oracle half v question) k c
               = Some c' /\ undoing c'.
Proof.
  induction k as [|k IH]; intros c Hc; simpl; [eauto|].
  destruct (undoing_turn v c Hc) as (c1 & -> & Hc1). auto.
Qed.

Lemma undoing_loop (v : Variant) (fuel : nat) :
  forall c, undoing c ->
    Eval.loop (Eval.astar_turn undoing_oracle half v question) fuel c = None.
Proof.
  induction fuel as [|fuel IH]; intros c Hc; simpl; [reflexivity|].
  destruct (undoing_turn v c Hc) as (c1 & -> & Hc1). auto.
Qed.

(** C8 fails: no budget ends a search.  Under replies whose evaluation
    undoes what the other tool did, either search pops and pushes one node
    in every turn, for ever: however many turns are allowed, it has
    neither returned nor raised anything, and one node is on OPEN. *)
Lemma search_goes_on_without_end :
  ~ (exists v fuel r,
       Eval.astar v undoing_oracle half fuel w0 State0 question = Some r)
  /\ ~ (exists v k,
          Eval.turns (Eval.astar_turn undoing_oracle half v question) k
            (Eval.start w0 State0) = None).
Proof.
  split.
  - intros (v & fuel & r & H). unfold Eval.astar in H.
    rewrite (undoing_loop v fuel _ undoing_start) in H. discriminate.
  - intros (v & k & H).
    destruct (undoing_turns v k _ undoing_start) as (c & Hc & _).
    congruence.
Qed.

(** ** The loop has no budget *)

Lemma Eval_loop_more_fuel (turn : EConfig -> ETurn) (fuel extra : nat)
  (c : EConfig) (r : Ending) :
  Eval.loop turn fuel c = Some r -> Eval.loop turn (fuel + extra) c = Some r.
Proof.
  revert c. induction fuel as [|fuel IH]; intros c; simpl; [discriminate|].
  destruct (turn c); auto.
Qed.

Lemma Eval_loop_last (turn : EConfig -> ETurn) (fuel : nat) :
  forall (c : EConfig) (r : Ending),
    Eval.loop turn fuel c = Some r ->
    exists k c', k < fuel /\ Eval.turns turn k c = Some c'
      /\ turn c' = match r with
                   | Ends x => EFinished x
                   | Exited e => EExits e
                   end.
Proof.
  induction fuel as [|fuel IH]; intros c r; simpl; [discriminate|].
  destruct (turn c) as [c1|x|e|] eqn:Ht.
  - intros H. destruct (IH c1 r H) as (k & c' & Hk & Hts & Hl).
    exists (S k), c'. simpl. rewrite Ht. repeat split; auto. lia.
  - intros H; inversion H; subst. exists 0, c. simpl. repeat split; auto. lia.
  - intros H; inversion H; subst. exists 0, c. simpl. repeat split; auto. lia.
  - discriminate.
Qed.

Lemma Eval_Planner_eval_tools_returns (o : EvalOracle)
  (random : nat -> float) (node : Node) (q : string)
  (tc : list (Tool * float)) :
  forall cur best w e cur',
    fst (Eval.Planner_eval_tools o random node cur q tc best w)
    <> Done (Raise e, cur').
Proof.
  induction tc as [|[tool prior] rest IH]; intros cur best w e cur'.
  - cbn. discriminate.
  - cbn [Eval.Planner_eval_tools].
    destruct (negb (precondition tool cur)); [apply IH|].
    destruct (Eval.propose_args o tool cur q w) as [[[cands s']| |] w1];
      try (cbn; discriminate).
    destruct (mapP (predict_success (plain o) random s' tool) cands w1)
      as [probs w2].
    rewrite eval_args_fold. apply IH.
Qed.

(** How a turn of either search can end the search. *)
Lemma Eval_turn_end (o : EvalOracle) (random : nat -> float) (v : Variant)
  (q : string) (c : EConfig) :
  match Eval.astar_turn o random v q c with
  | EFinished (Ret p) =>
      exists node rest, heappop (e_open c) = Some (node, rest)
        /\ is_goal (state node) = true /\ p = plan node
  | EFinished (Raise e) =>
      e = RuntimeError "No plan found" <-> e_open c = []
  | EExits _ => e_open c <> []
  | _ => True
  end.
Proof.
  destruct c as [op cl w].
  destruct v; cbn [Eval.astar_turn];
    unfold Eval.Planner_astar_turn, Eval.planner_astar_turn;
    cbn [e_open e_closed e_world];
    (destruct op as [|n0 op]; [cbn; tauto|]);
    cbn [heappop]; destruct (pop_least n0 op) as [node open'];
    (destruct (negb (state_hashable (state node)));
       [split; [discriminate|congruence]|]);
    (destruct (in_closed (state node) cl); [exact I|]);
    (destruct (is_goal (state node)) eqn:Hg; [eauto|]).
  - destruct (Planner.propose_tools (plain o) (state node) q 3 w)
      as [[|tc0 tcs] w1]; [exact I|].
    pose proof (Eval_Planner_eval_tools_returns o random node q (tc0 :: tcs)
                  (state node) None w1) as Hn.
    destruct (Eval.Planner_eval_tools o random node (state node) q
                (tc0 :: tcs) None w1) as [[[r cur]| |] w2]; simpl in Hn;
      [|discriminate|exact I].
    destruct r as [[b|]|e]; [exact I|exact I|].
    exfalso. exact (Hn e cur eq_refl).
  - destruct (planner.propose_tools (plain o) (state node) q 3 w)
      as [[|[tool prior] tcs] w1]; [split; [discriminate|congruence]|].
    destruct (negb (precondition tool (state node))); [exact I|].
    destruct (Eval.propose_args o tool (state node) q w1)
      as [[[cands cur]| |] w2]; [|discriminate|exact I].
    pose proof (planner_eval_args_inv (plain o) random (at_state node cur)
                  tool prior cands None w2) as Hi.
    destruct (planner.eval_args (plain o) random (at_state node cur) tool
                prior cands None w2) as [r w3].
    simpl in Hi. destruct r as [[b|]|e]; [exact I|exact I|].
    rewrite Hi by discriminate. split; [discriminate|congruence].
Qed.

(** C8, amended.  Neither search takes a deadline or a count of
    expansions, and neither has a failure for a search that took too long.
    A search that comes back does so after some complete turns, in a turn
    that pops a goal node and returns its plan, or finds OPEN exhausted and
    raises [RuntimeError("No plan found")], which it raises in no other
    case, or lets an exception of the expansion escape; and it comes back
    with the same result however many more turns are allowed. *)
Theorem search_ends_at_goal_or_exhaustion_only (v : Variant)
  (oracle : EvalOracle) (random : nat -> float) (fuel : nat) (w : World)
  (init : State) (q : string) (r : Ending) :
  Eval.astar v oracle random fuel w init q = Some r ->
  (forall extra,
     Eval.astar v oracle random (fuel + extra) w init q = Some r)
  /\ exists k c,
       k < fuel
       /\ Eval.turns (Eval.astar_turn oracle random v q) k
            (Eval.start w init) = Some c
       /\ match r with
          | Ends (Ret p) =>
              exists node rest, heappop (e_open c) = Some (node, rest)
                /\ is_goal (state node) = true /\ p = plan node
          | Ends (Raise e) =>
              e = RuntimeError "No plan found" <-> e_open c = []
          | Exited _ => e_open c <> []
          end.
Proof.
  unfold Eval.astar. intros H. split.
  - intros extra. now apply Eval_loop_more_fuel.
  - destruct (Eval_loop_last _ _ _ _ H) as (k & c & Hk & Hts & Hl).
    exists k, c. repeat split; auto.
    pose proof (Eval_turn_end oracle random v q c) as He. rewrite Hl in He.
    destruct r as [[p|e]|e]; exact He.
Qed.

Lemma search_ends_at_goal_or_exhaustion_only_witness :
  (forall extra,
     Eval.astar Viz (literal failing_oracle) half (5 + extra) w0 State0
       question = Some (Ends (Ret plan_book)))
  /\ exists k c,
       k < 5
       /\ Eval.turns (Eval.astar_turn (literal failing_oracle) half Viz
                        question) k (Eval.start w0 State0) = Some c
       /\ exists node rest, heappop (e_open c) = Some (node, rest)
            /\ is_goal (state node) = true /\ plan_book = plan node.
Proof.
  apply (search_ends_at_goal_or_exhaustion_only Viz (literal failing_oracle)
           half 5 w0 State0 question (Ends (Ret plan_book))).
  vm_compute. reflexivity.
Defined.

(** ** When the evaluations leave the state alone *)








(** ** Execution of a returned plan *)





(** ** [propose_args] with the evaluation *)


(** ** The floor of the divisor *)

(** In planner_viz.py, when the prior or the probability is zero, the
    evaluation of a candidate that the tool accepts divides by the epsilon
    itself and raises nothing; and when the node is one that a search has
    built, with a plan of at most three steps of registry tools, the [f]
    of the successor is a finite number. *)
Theorem Planner_f_new_finite_on_zero (init : State) (node : Node)
  (tool : Tool) (args : list PyVal) (prob prior : float) (sim : State) :
  PrimFloat.eqb prob 0 = true \/ PrimFloat.eqb prior 0 = true ->
  node_ok init node ->
  Forall (fun step => In (fst step) TOOLS) (plan node) ->
  List.length (plan node) <= 3 ->
  In tool TOOLS ->
  Tool_call tool (state node) args = (Ret true, sim) ->
  exists b,
    Planner.eval_args node tool prior [(args, prob)] None = Ret (Some b)
    /\ b_combined_p b = 1e-9%float
    /\ b_state b = sim
    /\ b_g b = (g node + cost tool)%float
    /\ b_f b = (b_g b + heuristic sim / 1e-9)%float
    /\ PyFloat.is_finite (b_f b) = true.
Proof.
  intros Hz [_ Hg] Hp Hlen Ht Hc. cbn [Planner.eval_args]. rewrite Hc.
  rewrite div_floor, floor_of_zero_factor by exact Hz.
  eexists. split; [reflexivity|]. cbn [b_combined_p b_state b_g b_f].
  repeat split. rewrite Hg.
  rewrite <- (plan_cost_snoc (plan node) tool args).
  apply floored_f_is_finite.
  - apply Forall_app. split; [exact Hp|]. constructor; [exact Ht|constructor].
  - rewrite length_app. simpl. lia.
Qed.

Lemma Planner_f_new_finite_on_zero_witness :
  exists b,
    Planner.eval_args (Planner.root State0) set_origin 1
      [([PyStr "New York"], 0%float)] None = Ret (Some b)
    /\ b_combined_p b = 1e-9%float
    /\ b_state b = mkState (PyStr "New York") PyNone PyNone false
    /\ b_g b = (g (Planner.root State0) + cost set_origin)%float
    /\ b_f b
       = (b_g b
          + heuristic (mkState (PyStr "New York") PyNone PyNone false)
            / 1e-9)%float
    /\ PyFloat.is_finite (b_f b) = true.
Proof.
  apply (Planner_f_new_finite_on_zero State0 (Planner.root State0) set_origin
           [PyStr "New York"] 0 1).
  - left. reflexivity.
  - split; reflexivity.
  - constructor.
  - simpl. lia.
  - simpl. auto.
  - reflexivity.
Defined.

(** ** When every evaluation comes back and leaves the state alone *)






